(** * The workspace server of claude-pod-fly-v2 (backend/server.js)

    A shallow embedding of the Express/WebSocket server: the values that
    travel through it, the [DevPodManager] class, the HTTP routes for
    workspace creation and chat, and the socket relay with its
    [activeConnections] table.  Everything the server delegates to the
    outside (subprocesses, HTTP calls, the clock, socket writes) is an
    event of a small free monad [io]; [run] answers the events from a
    [world] and records them.

    Left out: the [console] output, and the middleware in front of the
    route handlers ([helmet], [cors], the JSON body parser and the two
    rate limiters); a route is modelled from the point where its handler
    receives [req]. *)

From Stdlib Require Import Ascii String ZArith DecimalString DecimalZ DecimalN.
From stdpp Require Import gmap strings list countable.

Local Open Scope Z_scope.
Local Open Scope string_scope.

(** ** JavaScript values *)

(** The values the server handles come out of [JSON.parse], out of the
    request body, or are built by object literals.  Numbers are the
    integers (every number the server itself produces is one: the
    millisecond clock, token limits); an object is its list of own
    properties in insertion order, with unique keys. *)
#[local] Unset Elimination Schemes.
Inductive value : Type :=
| VUndefined
| VNull
| VBool (b : bool)
| VNum (n : Z)
| VStr (s : string)
| VArr (items : list value)
| VObj (props : list (string * value)).
#[local] Set Elimination Schemes.

(** An [Error] object, reduced to what the server reads: its [message]. *)
Record error : Type := Error { error_message : string }.

(** The outcome of an expression that may throw, or of an awaited promise
    that may reject. *)
Inductive result (A : Type) : Type :=
| Ok (a : A)
| Thrown (e : error).
Arguments Ok {A} a.
Arguments Thrown {A} e.

(** The double quote, which the string notation cannot hold. *)
Definition dquote : string := String "034"%char EmptyString.

Module JS.

(** ToBoolean: what [!x], [x && y] and [if (x)] test. *)
Definition truthy (v : value) : bool :=
  match v with
  | VUndefined | VNull => false
  | VBool b => b
  | VNum n => negb (Z.eqb n 0)
  | VStr s => negb (String.eqb s "")
  | VArr _ | VObj _ => true
  end.

(** Number.prototype.toString on an integer (plain decimal digits, as
    the engine prints every integer below 10^21 in magnitude). *)
Definition string_of_Z (n : Z) : string :=
  NilZero.string_of_int (Z.to_int n).

Definition join (sep : string) (parts : list string) : string :=
  String.concat sep parts.

(** ToString, as a template literal [`${v}`] applies it to a value that
    has the conversions it was born with: a string is itself.  An object
    or array that carries a [toString] or [valueOf] property of its own,
    on which the engine may throw, and the exponent form of a number from
    10^21 on are not modelled; the properties that follow an id or a
    message into a text are stated for strings. *)
Fixpoint to_string (v : value) : string :=
  match v with
  | VUndefined => "undefined"
  | VNull => "null"
  | VBool true => "true"
  | VBool false => "false"
  | VNum n => string_of_Z n
  | VStr s => s
  | VArr items =>
      join "," (map (fun x => match x with
                              | VUndefined | VNull => ""
                              | _ => to_string x
                              end) items)
  | VObj _ => "[object Object]"
  end.

Definition TypeError (msg : string) : error := Error msg.

Definition lookup_prop (key : string) (props : list (string * value)) : value :=
  match find (fun kv => String.eqb (fst kv) key) props with
  | Some kv => snd kv
  | None => VUndefined
  end.

(** [v.key] for a key that names no built-in property (all keys the
    server reads are of that kind, [length] aside): reading from
    [undefined] or [null] throws, an object answers from its own
    properties, every other value answers [undefined]. *)
Definition get (v : value) (key : string) : result value :=
  match v with
  | VUndefined =>
      Thrown (TypeError ("Cannot read properties of undefined (reading '"
                           +:+ key +:+ "')"))
  | VNull =>
      Thrown (TypeError ("Cannot read properties of null (reading '"
                           +:+ key +:+ "')"))
  | VObj props => Ok (lookup_prop key props)
  | VArr items =>
      Ok (if String.eqb key "length" then VNum (Z.of_nat (length items))
          else VUndefined)
  | VStr s =>
      Ok (if String.eqb key "length" then VNum (Z.of_nat (String.length s))
          else VUndefined)
  | VBool _ | VNum _ => Ok VUndefined
  end.

Definition string_of_nat (i : nat) : string :=
  NilEmpty.string_of_uint (Nat.to_uint i).

(** [v[i]] for an index [i]. *)
Definition get_index (v : value) (i : nat) : result value :=
  match v with
  | VUndefined =>
      Thrown (TypeError ("Cannot read properties of undefined (reading '"
                           +:+ string_of_nat i +:+ "')"))
  | VNull =>
      Thrown (TypeError ("Cannot read properties of null (reading '"
                           +:+ string_of_nat i +:+ "')"))
  | VArr items => Ok (nth i items VUndefined)
  | VStr s =>
      Ok (match String.get i s with
          | Some c => VStr (String c EmptyString)
          | None => VUndefined
          end)
  | VObj props => Ok (lookup_prop (string_of_nat i) props)
  | VBool _ | VNum _ => Ok VUndefined
  end.

(** [obj[key] = v] on a property list: an existing key keeps its
    place, a new one goes last. *)
Fixpoint set_prop (key : string) (v : value) (props : list (string * value))
  : list (string * value) :=
  match props with
  | [] => [(key, v)]
  | (k, old) :: rest =>
      if String.eqb k key then (k, v) :: rest
      else (k, old) :: set_prop key v rest
  end.

Fixpoint indexed_from (i : nat) (items : list value) : list (string * value) :=
  match items with
  | [] => []
  | x :: rest => (string_of_nat i, x) :: indexed_from (S i) rest
  end.

Fixpoint chars_of (s : string) : list value :=
  match s with
  | EmptyString => []
  | String c rest => VStr (String c EmptyString) :: chars_of rest
  end.

(** The own enumerable properties that a spread [...v] copies. *)
Definition own_props (v : value) : list (string * value) :=
  match v with
  | VObj props => props
  | VArr items => indexed_from 0 items
  | VStr s => indexed_from 0 (chars_of s)
  | VUndefined | VNull | VBool _ | VNum _ => []
  end.

(** [v] has an own property named [key]. *)
Definition has_own (key : string) (v : value) : bool :=
  existsb (λ kv, String.eqb (fst kv) key) (own_props v).

(** [{...acc, ...v}]: the properties of [v] written onto [acc] in order. *)
Definition spread (acc : list (string * value)) (v : value)
  : list (string * value) :=
  fold_left (fun o kv => set_prop (fst kv) (snd kv) o) (own_props v) acc.

(** The properties [JSON.stringify] writes for an object, given how it
    writes a value: a property holding [undefined] is left out. *)
Definition keep_defined (f : value → value)
  : list (string * value) → list (string * value) :=
  fix go ps :=
    match ps with
    | [] => []
    | (k, VUndefined) :: rest => go rest
    | (k, x) :: rest => (k, f x) :: go rest
    end.

(** The document [JSON.stringify] writes for a value, itself as a value:
    a property holding [undefined] is left out, an [undefined] array
    element is written [null].  The text is the rendering of that
    document. *)
Fixpoint stringify (v : value) : value :=
  match v with
  | VArr items =>
      VArr (map (fun x => match x with
                          | VUndefined => VNull
                          | _ => stringify x
                          end) items)
  | VObj props => VObj (keep_defined stringify props)
  | _ => v
  end.

(** A value that JSON can carry: no [undefined] anywhere inside. *)
Fixpoint is_json (v : value) : bool :=
  match v with
  | VUndefined => false
  | VArr items => forallb is_json items
  | VObj props => forallb (λ kv, is_json kv.2) props
  | _ => true
  end.

Definition is_space (c : ascii) : bool :=
  let n := nat_of_ascii c in
  (Nat.leb 9 n && Nat.leb n 13) || Nat.eqb n 32.

Fixpoint trim_start (s : string) : string :=
  match s with
  | EmptyString => EmptyString
  | String c rest => if is_space c then trim_start rest else s
  end.

(** String.prototype.trim, on the ASCII white space. *)
Definition trim (s : string) : string :=
  String.rev (trim_start (String.rev (trim_start s))).

(** [s.replace(/'/g, "'\\''")]: every single quote becomes the four
    characters quote, backslash, quote, quote. *)
Fixpoint replace_quotes (s : string) : string :=
  match s with
  | EmptyString => EmptyString
  | String c rest =>
      if Ascii.eqb c "'"%char
      then "'\''" +:+ replace_quotes rest
      else String c (replace_quotes rest)
  end.

(** [message.replace(/'/g, ...)] on any value: only a string has the
    method. *)
Definition replace_method (receiver : string) (v : value) : result string :=
  match v with
  | VStr s => Ok (replace_quotes s)
  | VUndefined =>
      Thrown (TypeError "Cannot read properties of undefined (reading 'replace')")
  | VNull =>
      Thrown (TypeError "Cannot read properties of null (reading 'replace')")
  | _ => Thrown (TypeError (receiver +:+ ".replace is not a function"))
  end.

(** [new Error(v)]: the message is the string form of the argument,
    empty when there is none. *)
Definition new_Error (v : value) : error :=
  match v with
  | VUndefined => Error ""
  | _ => Error (to_string v)
  end.

(** [a === b].  Primitives compare by value; an array or object is
    only identical to itself, and the two sides the server compares are
    never the same object (one of them is freshly parsed). *)
Definition strict_equals (a b : value) : bool :=
  match a, b with
  | VUndefined, VUndefined | VNull, VNull => true
  | VBool x, VBool y => Bool.eqb x y
  | VNum x, VNum y => Z.eqb x y
  | VStr x, VStr y => String.eqb x y
  | _, _ => false
  end.

(** [const { key } = source]: reading a property, except that
    destructuring [undefined] or [null] fails as a whole. *)
Definition destructure (source : string) (v : value) (key : string)
  : result value :=
  match v with
  | VUndefined =>
      Thrown (TypeError ("Cannot destructure property '" +:+ key +:+ "' of '"
                           +:+ source +:+ "' as it is undefined."))
  | VNull =>
      Thrown (TypeError ("Cannot destructure property '" +:+ key +:+ "' of '"
                           +:+ source +:+ "' as it is null."))
  | _ => get v key
  end.

End JS.

(** ** Structure of values: induction, decidable equality, countability *)

Section value_induction.
Variable P : value → Prop.
Hypothesis Hundefined : P VUndefined.
Hypothesis Hnull : P VNull.
Hypothesis Hbool : ∀ b, P (VBool b).
Hypothesis Hnum : ∀ n, P (VNum n).
Hypothesis Hstr : ∀ s, P (VStr s).
Hypothesis Harr : ∀ items, Forall P items → P (VArr items).
Hypothesis Hobj : ∀ props, Forall (λ kv, P kv.2) props → P (VObj props).

Fixpoint value_ind (v : value) : P v :=
  match v with
  | VUndefined => Hundefined
  | VNull => Hnull
  | VBool b => Hbool b
  | VNum n => Hnum n
  | VStr s => Hstr s
  | VArr items =>
      Harr items
        ((fix all (l : list value) : Forall P l :=
            match l with
            | [] => Forall_nil P
            | x :: l' => Forall_cons P x l' (value_ind x) (all l')
            end) items)
  | VObj props =>
      Hobj props
        ((fix all (l : list (string * value)) : Forall (λ kv, P kv.2) l :=
            match l with
            | [] => Forall_nil _
            | kv :: l' =>
                Forall_cons (λ kv, P kv.2) kv l' (value_ind kv.2) (all l')
            end) props)
  end.
End value_induction.

Fixpoint value_to_tree (v : value) : gen_tree (bool + Z + string) :=
  match v with
  | VUndefined => GenNode 0 []
  | VNull => GenNode 1 []
  | VBool b => GenLeaf (inl (inl b))
  | VNum n => GenLeaf (inl (inr n))
  | VStr s => GenLeaf (inr s)
  | VArr items => GenNode 2 (map value_to_tree items)
  | VObj props =>
      GenNode 3 (map (λ kv, GenNode 4 [GenLeaf (inr kv.1); value_to_tree kv.2])
                   props)
  end.

Fixpoint tree_to_value (t : gen_tree (bool + Z + string)) : value :=
  match t with
  | GenLeaf (inl (inl b)) => VBool b
  | GenLeaf (inl (inr n)) => VNum n
  | GenLeaf (inr s) => VStr s
  | GenNode 0 _ => VUndefined
  | GenNode 1 _ => VNull
  | GenNode 2 ts => VArr (map tree_to_value ts)
  | GenNode _ ts =>
      VObj (map (λ t, match t with
                      | GenNode _ [GenLeaf (inr k); t'] => (k, tree_to_value t')
                      | _ => ("", VUndefined)
                      end) ts)
  end.

Lemma tree_to_value_to_tree (v : value) : tree_to_value (value_to_tree v) = v.
Proof.
  induction v as [| | b | n | s | items IH | props IH] using value_ind;
    simpl; try reflexivity.
  - f_equal. induction IH as [| x l Hx _ IHl]; simpl; [done |].
    by rewrite Hx, IHl.
  - f_equal. induction IH as [| [k x] l Hx _ IHl]; simpl; [done |].
    simpl in Hx. by rewrite Hx, IHl.
Qed.

#[global] Instance value_eq_dec : EqDecision value.
Proof.
  unfold EqDecision, Decision. fix go 1. intros x y.
  destruct x as [| | b | n | s | items | props],
           y as [| | b' | n' | s' | items' | props'];
    try (right; discriminate); try (left; reflexivity).
  - destruct (decide (b = b')); [left | right]; congruence.
  - destruct (decide (n = n')); [left | right]; congruence.
  - destruct (decide (s = s')); [left | right]; congruence.
  - destruct (@list_eq_dec _ go items items'); [left | right]; congruence.
  - destruct (@list_eq_dec _ (@prod_eq_dec _ _ _ go) props props');
      [left | right]; congruence.
Defined.

#[global] Instance value_countable : Countable value :=
  inj_countable' value_to_tree tree_to_value tree_to_value_to_tree.

(** ** Effects *)

(** A WebSocket object, by identity. *)
Definition socket : Type := nat.
Bind Scope nat_scope with socket.

(** What the engine supplies to the program: [JSON.parse] and the process
    environment. *)
Record host : Type := Host {
  JSON_parse : string → result value;
  process_env : string → value
}.

(** A program of the server: it returns, throws, or performs an effect and
    goes on with the answer.  The [await]ed calls ([Exec], [Post],
    [CreateUsingTemplate]) hand the continuation the settled promise;
    [SetVar]/[GetVar] are the [connectionWorkspaceId] variable of a
    connection's closure, [TableSet]/[TableDelete] the [activeConnections]
    map. *)
Inductive io (A : Type) : Type :=
| Ret (a : A)
| Throw (e : error)
| Exec (command : string) (k : result string → io A)
| Post (url : string) (data config : value) (k : result value → io A)
| CreateUsingTemplate (params : value) (k : result value → io A)
| DateNow (k : Z → io A)
| DateISO (k : string → io A)
| Send (ws : socket) (data : value) (k : io A)
| SetVar (ws : socket) (v : value) (k : io A)
| GetVar (ws : socket) (k : value → io A)
| TableSet (key : value) (ws : socket) (k : io A)
| TableDelete (key : value) (k : io A).
Arguments Ret {A} a.
Arguments Throw {A} e.
Arguments Exec {A} command k.
Arguments Post {A} url data config k.
Arguments CreateUsingTemplate {A} params k.
Arguments DateNow {A} k.
Arguments DateISO {A} k.
Arguments Send {A} ws data k.
Arguments SetVar {A} ws v k.
Arguments GetVar {A} ws k.
Arguments TableSet {A} key ws k.
Arguments TableDelete {A} key k.

Fixpoint bind {A B : Type} (p : io A) (f : A → io B) : io B :=
  match p with
  | Ret a => f a
  | Throw e => Throw e
  | Exec c k => Exec c (λ r, bind (k r) f)
  | Post u d c k => Post u d c (λ r, bind (k r) f)
  | CreateUsingTemplate ps k => CreateUsingTemplate ps (λ r, bind (k r) f)
  | DateNow k => DateNow (λ t, bind (k t) f)
  | DateISO k => DateISO (λ t, bind (k t) f)
  | Send ws d k => Send ws d (bind k f)
  | SetVar ws v k => SetVar ws v (bind k f)
  | GetVar ws k => GetVar ws (λ v, bind (k v) f)
  | TableSet key ws k => TableSet key ws (bind k f)
  | TableDelete key k => TableDelete key (bind k f)
  end.

#[global] Instance io_ret : MRet io := @Ret.
#[global] Instance io_bind : MBind io := λ A B f p, bind p f.

(** [try { p } catch (error) { handler }], also [promise.catch(handler)]. *)
Fixpoint try_catch {A : Type} (p : io A) (handler : error → io A) : io A :=
  match p with
  | Ret a => Ret a
  | Throw e => handler e
  | Exec c k => Exec c (λ r, try_catch (k r) handler)
  | Post u d c k => Post u d c (λ r, try_catch (k r) handler)
  | CreateUsingTemplate ps k =>
      CreateUsingTemplate ps (λ r, try_catch (k r) handler)
  | DateNow k => DateNow (λ t, try_catch (k t) handler)
  | DateISO k => DateISO (λ t, try_catch (k t) handler)
  | Send ws d k => Send ws d (try_catch k handler)
  | SetVar ws v k => SetVar ws v (try_catch k handler)
  | GetVar ws k => GetVar ws (λ v, try_catch (k v) handler)
  | TableSet key ws k => TableSet key ws (try_catch k handler)
  | TableDelete key k => TableDelete key (try_catch k handler)
  end.

(** An expression that may throw, inside a program. *)
Definition lift {A : Type} (r : result A) : io A :=
  match r with
  | Ok a => Ret a
  | Thrown e => Throw e
  end.

(** [await execAsync(command)]: the child's standard output, or the
    rejection. *)
Definition execAsync (command : string) : io string := Exec command lift.

(** [await axios.post(url, data, config)]: the [data] of the response. *)
Definition axios_post (url : string) (data config : value) : io value :=
  Post url data config lift.

(** [await octokit.repos.createUsingTemplate(params)]: the [data] of the
    response. *)
Definition createUsingTemplate (params : value) : io value :=
  CreateUsingTemplate params lift.

Definition send (ws : socket) (data : value) : io unit := Send ws data (Ret ()).

(** ** Running a program *)

(** What an observer outside the process sees. *)
Inductive event : Type :=
| EExec (command : string) (r : result string)
| EPost (url : string) (data config : value) (r : result value)
| ETemplate (params : value) (r : result value)
| ENow (t : Z)
| EISO (t : string)
| ESend (ws : socket) (data : value).

(** The outside: how each call settles, given everything that happened
    before it. *)
Record world : Type := World {
  exec_reply : list event → string → result string;
  post_reply : list event → string → value → value → result value;
  template_reply : list event → value → result value;
  now_reply : list event → Z;
  iso_reply : list event → string
}.

(** The state of the socket relay: the [activeConnections] map and, per
    connection, the [connectionWorkspaceId] of its closure.  Map keys are
    compared by value, which is how a JavaScript [Map] compares strings,
    numbers, booleans, [null] and [undefined]; an array or object used as
    a workspace id would be keyed by reference there. *)
Record relay : Type := Relay {
  activeConnections : gmap value socket;
  connectionWorkspaceId : gmap socket value
}.

Definition relay_init : relay := Relay ∅ ∅.

Record outcome (A : Type) : Type := Outcome {
  returned : result A;
  state : relay;
  trace : list event
}.
Arguments Outcome {A} returned state trace.
Arguments returned {A} o.
Arguments state {A} o.
Arguments trace {A} o.

Definition emit {A : Type} (ev : event) (o : outcome A) : outcome A :=
  Outcome (returned o) (state o) (ev :: trace o).

(** [run w h st p]: the program [p] started in relay state [st] after the
    history [h]; the trace holds the events of [p] alone, in order. *)
Fixpoint run {A : Type} (w : world) (h : list event) (st : relay) (p : io A)
  : outcome A :=
  match p with
  | Ret a => Outcome (Ok a) st []
  | Throw e => Outcome (Thrown e) st []
  | Exec c k =>
      let r := exec_reply w h c in
      emit (EExec c r) (run w (h ++ [EExec c r]) st (k r))
  | Post u d c k =>
      let r := post_reply w h u d c in
      emit (EPost u d c r) (run w (h ++ [EPost u d c r]) st (k r))
  | CreateUsingTemplate ps k =>
      let r := template_reply w h ps in
      emit (ETemplate ps r) (run w (h ++ [ETemplate ps r]) st (k r))
  | DateNow k =>
      let t := now_reply w h in
      emit (ENow t) (run w (h ++ [ENow t]) st (k t))
  | DateISO k =>
      let t := iso_reply w h in
      emit (EISO t) (run w (h ++ [EISO t]) st (k t))
  | Send ws d k =>
      emit (ESend ws d) (run w (h ++ [ESend ws d]) st k)
  | SetVar ws v k =>
      run w h (Relay (activeConnections st)
                 (<[ws := v]> (connectionWorkspaceId st))) k
  | GetVar ws k =>
      run w h st (k (default VNull (connectionWorkspaceId st !! ws)))
  | TableSet key ws k =>
      run w h (Relay (<[key := ws]> (activeConnections st))
                 (connectionWorkspaceId st)) k
  | TableDelete key k =>
      run w h (Relay (delete key (activeConnections st))
                 (connectionWorkspaceId st)) k
  end.

(** ** The workspace manager: [class DevPodManager] *)

Definition newline : string := String "010"%char EmptyString.

Module DevPodManager.
Section methods.
Variable H : host.

(** [await execAsync('which devpod').catch(() => null)], followed by
    the test [devpodCheck && devpodCheck.stdout.trim()]. *)
Definition devpodCheck : io (option string) :=
  try_catch (stdout ← execAsync "which devpod"; mret (Some stdout))
    (λ _, mret None).

Definition available (check : option string) : bool :=
  match check with
  | Some stdout => JS.truthy (VStr (JS.trim stdout))
  | None => false
  end.

Definition createWorkspace (workspaceId repoUrl : value) : io value :=
  try_catch
    (check ← devpodCheck;
     if available check then
       let command := "devpod up " +:+ JS.to_string repoUrl +:+ " --id "
                        +:+ JS.to_string workspaceId +:+ " --provider docker" in
       result ← execAsync command;
       mret (VObj [("success", VBool true);
                   ("workspaceId", workspaceId);
                   ("status", VStr "created");
                   ("output", VStr result);
                   ("mode", VStr "devpod")])
     else
       mret (VObj [("success", VBool true);
                   ("workspaceId", workspaceId);
                   ("status", VStr "created");
                   ("output", VStr "Workspace created in mock mode (DevPod not available)");
                   ("mode", VStr "mock")]))
    (λ error,
       mret (VObj [("success", VBool false);
                   ("error", VStr (error_message error))])).

(** The shell command of the DevPod branch. *)
Definition ssh_command (workspaceId : value) (escapedMessage : string)
  : string :=
  "devpod ssh " +:+ JS.to_string workspaceId +:+ " --command " +:+ dquote
    +:+ "cd /workspace && python3 .devcontainer/claude-handler.py '"
    +:+ escapedMessage +:+ "'" +:+ dquote.

(** The prompt of the direct branch. *)
Definition prompt (message : value) : string :=
  "You are an AI assistant helping build a React application. The user said: "
    +:+ dquote +:+ JS.to_string message +:+ dquote +:+ ". " +:+ newline
    +:+ "            " +:+ newline
    +:+ "            Provide helpful guidance for building their React app. Keep responses concise and practical.".

Definition api_url : string := "https://api.anthropic.com/v1/messages".

Definition api_request (message : value) : value :=
  VObj [("model", VStr "claude-3-5-sonnet-20241022");
        ("max_tokens", VNum 4000);
        ("messages", VArr [VObj [("role", VStr "user");
                                 ("content", VStr (prompt message))]])].

Definition api_config : value :=
  VObj [("headers",
         VObj [("x-api-key", process_env H "ANTHROPIC_API_KEY");
               ("anthropic-version", VStr "2023-06-01");
               ("content-type", VStr "application/json")])].

(** The [maxBuffer] option of the [devpod ssh] call bounds the output the
    child may print; exceeding it is one of the ways the call rejects. *)
Definition executeInWorkspace (workspaceId message : value) : io value :=
  try_catch
    (check ← devpodCheck;
     if available check then
       escapedMessage ← lift (JS.replace_method "message" message);
       let command := ssh_command workspaceId escapedMessage in
       result ← execAsync command;
       lift (JSON_parse H result)
     else
       data ← axios_post api_url (api_request message) api_config;
       content ← lift (JS.get data "content");
       first ← lift (JS.get_index content 0);
       text ← lift (JS.get first "text");
       mret (VObj [("success", VBool true);
                   ("response", text);
                   ("context_used", VBool true);
                   ("workspace_updated", VBool true);
                   ("mode", VStr "direct-api")]))
    (λ error,
       mret (VObj [("success", VBool false);
                   ("error", VStr (error_message error));
                   ("response", VStr "I encountered an error processing your request.")])).

(** [workspaces.find(w => w.id === workspaceId)] on the elements. *)
Fixpoint find_by_id (workspaceId : value) (items : list value)
  : result value :=
  match items with
  | [] => Ok VUndefined
  | w :: rest =>
      match JS.get w "id" with
      | Thrown e => Thrown e
      | Ok id =>
          if JS.strict_equals id workspaceId then Ok w
          else find_by_id workspaceId rest
      end
  end.

Definition find_workspace (workspaces workspaceId : value) : result value :=
  match workspaces with
  | VArr items => find_by_id workspaceId items
  | VUndefined =>
      Thrown (JS.TypeError "Cannot read properties of undefined (reading 'find')")
  | VNull =>
      Thrown (JS.TypeError "Cannot read properties of null (reading 'find')")
  | _ => Thrown (JS.TypeError "workspaces.find is not a function")
  end.

Definition getWorkspaceStatus (workspaceId : value) : io value :=
  try_catch
    (let command := "devpod list --output json" in
     result ← execAsync command;
     workspaces ← lift (JSON_parse H result);
     workspace ← lift (find_workspace workspaces workspaceId);
     mret (if JS.truthy workspace then workspace
           else VObj [("status", VStr "not_found")]))
    (λ error,
       mret (VObj [("status", VStr "error");
                   ("error", VStr (error_message error))])).

Definition stopWorkspace (workspaceId : value) : io value :=
  try_catch
    (let command := "devpod stop " +:+ JS.to_string workspaceId in
     _ ← execAsync command;
     mret (VObj [("success", VBool true)]))
    (λ error,
       mret (VObj [("success", VBool false);
                   ("error", VStr (error_message error))])).

Definition deleteWorkspace (workspaceId : value) : io value :=
  try_catch
    (let command := "devpod delete " +:+ JS.to_string workspaceId
                      +:+ " --force" in
     _ ← execAsync command;
     mret (VObj [("success", VBool true)]))
    (λ error,
       mret (VObj [("success", VBool false);
                   ("error", VStr (error_message error))])).

End methods.
End DevPodManager.

(** ** The HTTP routes *)

(** What a handler writes with [res.status(code).json(body)]; [res.json]
    alone answers 200. *)
Record response : Type := Response {
  status : nat;
  body : value
}.

Definition res_json (code : nat) (payload : value) : response :=
  Response code (JS.stringify payload).

Module Routes.
Section handlers.
Variable H : host.

(** The identifier a creation request gets:
    [`workspace-${userId}-${Date.now()}`]. *)
Definition make_workspaceId (userId : value) (now : Z) : string :=
  "workspace-" +:+ JS.to_string userId +:+ "-" +:+ JS.to_string (VNum now).

(** [app.post('/api/workspaces/create', ...)], applied to [req.body]. *)
Definition post_create (req_body : value) : io response :=
  try_catch
    (userId ← lift (JS.destructure "req.body" req_body "userId");
     projectName ← lift (JS.destructure "req.body" req_body "projectName");
     _ ← lift (JS.destructure "req.body" req_body "description");
     if negb (JS.truthy userId) || negb (JS.truthy projectName) then
       mret (res_json 400
               (VObj [("success", VBool false);
                      ("error", VStr "userId and projectName are required")]))
     else
       now ← DateNow Ret;
       let workspaceId := make_workspaceId userId now in
       repo_data ← createUsingTemplate
         (VObj [("template_owner", process_env H "GITHUB_TEMPLATE_OWNER");
                ("template_repo", VStr "ai-workspace-template");
                ("owner", process_env H "GITHUB_ORG");
                ("name", VStr workspaceId);
                ("description",
                 VStr ("AI Development Workspace: "
                         +:+ JS.to_string projectName));
                ("private", VBool false)]);
       clone_url ← lift (JS.get repo_data "clone_url");
       workspace ← DevPodManager.createWorkspace (VStr workspaceId) clone_url;
       success ← lift (JS.get workspace "success");
       if negb (JS.truthy success) then
         error ← lift (JS.get workspace "error");
         Throw (JS.new_Error error)
       else
         html_url ← lift (JS.get repo_data "html_url");
         clone_url' ← lift (JS.get repo_data "clone_url");
         mret (res_json 200
                 (VObj [("success", VBool true);
                        ("workspaceId", VStr workspaceId);
                        ("repositoryUrl", html_url);
                        ("cloneUrl", clone_url');
                        ("workspace", workspace)])))
    (λ error,
       mret (res_json 500
               (VObj [("success", VBool false);
                      ("error", VStr (error_message error))]))).

(** [app.post('/api/workspaces/:workspaceId/chat', ...)], applied to
    [req.params.workspaceId] and [req.body]. *)
Definition post_chat (workspaceId : string) (req_body : value)
  : io response :=
  try_catch
    (message ← lift (JS.destructure "req.body" req_body "message");
     if negb (JS.truthy message) then
       mret (res_json 400
               (VObj [("success", VBool false);
                      ("error", VStr "message is required")]))
     else
       result ← DevPodManager.executeInWorkspace H (VStr workspaceId) message;
       mret (res_json 200 result))
    (λ error,
       mret (res_json 500
               (VObj [("success", VBool false);
                      ("error", VStr (error_message error));
                      ("response", VStr "I encountered an error. Please try again.")]))).

End handlers.
End Routes.

(** ** The socket relay: [wss.on('connection', ...)] *)

Module Relay_server.
Section handlers.
Variable H : host.

(** A new connection: the closure starts with
    [connectionWorkspaceId = null]. *)
Definition on_connection (ws : socket) : io unit :=
  SetVar ws VNull (Ret ()).

(** The body of [ws.on('message', ...)] once [data] is parsed. *)
Definition dispatch (ws : socket) (parsed : value) : io unit :=
  type ← lift (JS.destructure "JSON.parse(...)" parsed "type");
  workspaceId ← lift (JS.destructure "JSON.parse(...)" parsed "workspaceId");
  message ← lift (JS.destructure "JSON.parse(...)" parsed "message");
  _ ← (if JS.strict_equals type (VStr "init") then
         SetVar ws workspaceId
           (TableSet workspaceId ws
              (send ws (JS.stringify
                          (VObj [("type", VStr "connected");
                                 ("workspaceId", workspaceId)]))))
       else mret ());
  if JS.strict_equals type (VStr "chat") && JS.truthy workspaceId
     && JS.truthy message then
    _ ← send ws (JS.stringify (VObj [("type", VStr "typing");
                                     ("status", VBool true)]));
    result ← DevPodManager.executeInWorkspace H workspaceId message;
    timestamp ← DateISO Ret;
    _ ← send ws (JS.stringify
                   (VObj (JS.set_prop "timestamp" (VStr timestamp)
                            (JS.spread [("type", VStr "response")] result))));
    send ws (JS.stringify (VObj [("type", VStr "typing");
                                 ("status", VBool false)]))
  else mret ().

(** [ws.on('message', async (data) => { try { ... } catch ... })].
    Writing to the socket is taken not to fail. *)
Definition on_message (ws : socket) (data : string) : io unit :=
  try_catch
    (parsed ← lift (JSON_parse H data);
     dispatch ws parsed)
    (λ error,
       send ws (JS.stringify (VObj [("type", VStr "error");
                                    ("error", VStr (error_message error))]))).

(** [ws.on('close', ...)]. *)
Definition on_close (ws : socket) : io unit :=
  GetVar ws (λ connectionWorkspaceId,
    if JS.truthy connectionWorkspaceId
    then TableDelete connectionWorkspaceId (Ret ())
    else Ret ()).

(** What reaches the socket server. *)
Inductive input : Type :=
| Connection (ws : socket)
| Message (ws : socket) (data : string)
| Close (ws : socket).

Definition handler (i : input) : io unit :=
  match i with
  | Connection ws => on_connection ws
  | Message ws data => on_message ws data
  | Close ws => on_close ws
  end.

(** The server run over a sequence of inputs, one handler after the
    other: the final relay state and everything observed.  A handler
    touches the relay only before its first [await] ([init], [close]) or
    not at all ([chat]), so letting the handlers of concurrent chats
    interleave would reach the same relay states. *)
Fixpoint serve (w : world) (h : list event) (st : relay) (inputs : list input)
  : relay * list event :=
  match inputs with
  | [] => (st, [])
  | i :: rest =>
      let o := run w h st (handler i) in
      let '(st', tr) := serve w (h ++ trace o) (state o) rest in
      (st', (trace o ++ tr)%list)
  end.

End handlers.
End Relay_server.

(** ** The five operations of the manager, uniformly *)

Inductive operation : Type :=
| CreateWorkspace (workspaceId repoUrl : value)
| ExecuteInWorkspace (workspaceId message : value)
| GetWorkspaceStatus (workspaceId : value)
| StopWorkspace (workspaceId : value)
| DeleteWorkspace (workspaceId : value).

Definition perform (H : host) (op : operation) : io value :=
  match op with
  | CreateWorkspace workspaceId repoUrl =>
      DevPodManager.createWorkspace workspaceId repoUrl
  | ExecuteInWorkspace workspaceId message =>
      DevPodManager.executeInWorkspace H workspaceId message
  | GetWorkspaceStatus workspaceId => DevPodManager.getWorkspaceStatus H workspaceId
  | StopWorkspace workspaceId => DevPodManager.stopWorkspace workspaceId
  | DeleteWorkspace workspaceId => DevPodManager.deleteWorkspace workspaceId
  end.

(** The availability probe, whose own failure is swallowed by
    [.catch(() => null)] and only selects the fallback branch. *)
Definition probe : string := "which devpod".

(** An external call of the trace, other than the probe, raised [e]. *)
Definition rejected (e : error) (tr : list event) : Prop :=
  (∃ c, c ≠ probe ∧ In (EExec c (Thrown e)) tr)
  ∨ (∃ u d cfg, In (EPost u d cfg (Thrown e)) tr).

(** The one shape the specification gives to every failure. *)
Definition uniform_failure (e : error) : value :=
  VObj [("success", VBool false); ("error", VStr (error_message e))].

(** The value each operation's [catch] block builds. *)
Definition failure_value (op : operation) (e : error) : value :=
  match op with
  | CreateWorkspace _ _ | StopWorkspace _ | DeleteWorkspace _ =>
      VObj [("success", VBool false); ("error", VStr (error_message e))]
  | ExecuteInWorkspace _ _ =>
      VObj [("success", VBool false);
            ("error", VStr (error_message e));
            ("response", VStr "I encountered an error processing your request.")]
  | GetWorkspaceStatus _ =>
      VObj [("status", VStr "error"); ("error", VStr (error_message e))]
  end.

Definition is_exec (ev : event) : bool :=
  match ev with EExec _ _ => true | _ => false end.

Definition is_post (ev : event) : bool :=
  match ev with EPost _ _ _ _ => true | _ => false end.

(** The subprocess invocations and the HTTP posts of a trace. *)
Definition count_exec (tr : list event) : nat := length (List.filter is_exec tr).
Definition count_post (tr : list event) : nat := length (List.filter is_post tr).

(** ** Sample hosts and worlds for the examples *)

Definition quoted (s : string) : string := dquote +:+ s +:+ dquote.

Definition init_text (workspaceId : string) : string :=
  "{" +:+ quoted "type" +:+ ":" +:+ quoted "init" +:+ ","
    +:+ quoted "workspaceId" +:+ ":" +:+ quoted workspaceId +:+ "}".

Definition chat_text (workspaceId message : string) : string :=
  "{" +:+ quoted "type" +:+ ":" +:+ quoted "chat" +:+ ","
    +:+ quoted "workspaceId" +:+ ":" +:+ quoted workspaceId +:+ ","
    +:+ quoted "message" +:+ ":" +:+ quoted message +:+ "}".

Definition init_value (workspaceId : string) : value :=
  VObj [("type", VStr "init"); ("workspaceId", VStr workspaceId)].

Definition chat_value (workspaceId message : string) : value :=
  VObj [("type", VStr "chat"); ("workspaceId", VStr workspaceId);
        ("message", VStr message)].

(** What the workspace handler prints for an answer. *)
Definition answer_text : string :=
  "{" +:+ quoted "success" +:+ ":true," +:+ quoted "response" +:+ ":"
    +:+ quoted "Done." +:+ "}".

(** A handler output that carries a [type] of its own. *)
Definition progress_text : string :=
  "{" +:+ quoted "type" +:+ ":" +:+ quoted "progress" +:+ "}".

(** [JSON.parse] on the texts the examples use; any other text here is
    not JSON and raises the [SyntaxError]. *)
Definition sample_documents : list (string * value) :=
  [(init_text "w1", init_value "w1");
   (init_text "w2", init_value "w2");
   (init_text "", init_value "");
   (chat_text "w1" "hello", chat_value "w1" "hello");
   (chat_text "w1" "", chat_value "w1" "");
   (answer_text, VObj [("success", VBool true); ("response", VStr "Done.")]);
   (progress_text, VObj [("type", VStr "progress")]);
   ("null", VNull)].

Definition sample_parse (text : string) : result value :=
  match find (λ kv, String.eqb (fst kv) text) sample_documents with
  | Some kv => Ok (snd kv)
  | None => Thrown (Error "Unexpected token in JSON")
  end.

Definition sample_host : host := Host sample_parse (λ _, VUndefined).

Definition sample_clock : Z := 1750100640000.

(** No [devpod] on the machine; every outbound call fails. *)
Definition world_offline : world :=
  World (λ _ c, Thrown (Error ("Command failed: " +:+ c)))
        (λ _ _ _ _, Thrown (Error "getaddrinfo ENOTFOUND api.anthropic.com"))
        (λ _ _, Thrown (Error "getaddrinfo ENOTFOUND api.github.com"))
        (λ _, sample_clock)
        (λ _, "2025-06-16T19:04:00.000Z").

(** No [devpod] on the machine; the hosted API and GitHub answer. *)
Definition world_direct : world :=
  World (λ _ c, Thrown (Error ("Command failed: " +:+ c)))
        (λ _ _ _ _, Ok (VObj [("content",
                               VArr [VObj [("type", VStr "text");
                                           ("text", VStr "Use a component.")]])]))
        (λ _ _, Ok (VObj [("html_url", VStr "https://github.com/org/repo");
                          ("clone_url", VStr "https://github.com/org/repo.git")]))
        (λ _, sample_clock)
        (λ _, "2025-06-16T19:04:00.000Z").

(** [devpod] is installed and the workspace handler prints [answer_text]. *)
Definition world_devpod : world :=
  World (λ _ c, if String.eqb c probe
                then Ok ("/usr/local/bin/devpod" +:+ newline)
                else Ok answer_text)
        (λ _ _ _ _, Thrown (Error "getaddrinfo ENOTFOUND api.anthropic.com"))
        (λ _ _, Thrown (Error "getaddrinfo ENOTFOUND api.github.com"))
        (λ _, sample_clock)
        (λ _, "2025-06-16T19:04:00.000Z").

(** [devpod] is installed and the workspace handler prints
    [progress_text]. *)
Definition world_devpod_typed : world :=
  World (λ _ c, if String.eqb c probe
                then Ok ("/usr/local/bin/devpod" +:+ newline)
                else Ok progress_text)
        (λ _ _ _ _, Thrown (Error "getaddrinfo ENOTFOUND api.anthropic.com"))
        (λ _ _, Thrown (Error "getaddrinfo ENOTFOUND api.github.com"))
        (λ _, sample_clock)
        (λ _, "2025-06-16T19:04:00.000Z").

(** [devpod] is installed but every other command fails. *)
Definition world_devpod_down : world :=
  World (λ _ c, if String.eqb c probe
                then Ok ("/usr/local/bin/devpod" +:+ newline)
                else Thrown (Error ("Command failed: " +:+ c)))
        (λ _ _ _ _, Thrown (Error "getaddrinfo ENOTFOUND api.anthropic.com"))
        (λ _ _, Thrown (Error "getaddrinfo ENOTFOUND api.github.com"))
        (λ _, sample_clock)
        (λ _, "2025-06-16T19:04:00.000Z").

(** ** Reference definitions, in the words of the specification *)

(** The probe found the tool: it printed something besides white space. *)
Definition probe_found (r : result string) : bool :=
  match r with
  | Ok stdout => DevPodManager.available (Some stdout)
  | Thrown _ => DevPodManager.available None
  end.

(** Quoting for the shell, character by character: a single quote is
    replaced by quote, backslash, quote, quote; any other character stays. *)
Definition escape_char (c : ascii) : string :=
  if Ascii.eqb c "'"%char then "'\''" else String c EmptyString.

Definition escape_spec (s : string) : string :=
  fold_right (λ c rest, escape_char c +:+ rest) "" (list_ascii_of_string s).

(** The workspace id an [init] message registers, if [data] is one. *)
Definition init_of (H : host) (data : string) : option value :=
  match JSON_parse H data with
  | Ok (VObj props) =>
      if JS.strict_equals (JS.lookup_prop "type" props) (VStr "init")
      then Some (JS.lookup_prop "workspaceId" props)
      else None
  | _ => None
  end.

(** The workspace id of the latest [init] on connection [ws] ([null]
    when the connection has seen none), reading the inputs in order. *)
Fixpoint latest_init (H : host) (ws : socket) (inputs : list Relay_server.input)
    (current : value) : value :=
  match inputs with
  | [] => current
  | Relay_server.Connection ws' :: rest =>
      latest_init H ws rest (if decide (ws' = ws) then VNull else current)
  | Relay_server.Message ws' data :: rest =>
      latest_init H ws rest
        (if decide (ws' = ws) then default current (init_of H data)
         else current)
  | Relay_server.Close _ :: rest => latest_init H ws rest current
  end.

(** A value that a [Map] compares by content when it is used as a key:
    anything but an array or an object. *)
Definition primitive (v : value) : bool :=
  match v with
  | VArr _ | VObj _ => false
  | _ => true
  end.

(** The one socket registered under [workspaceId], reading the inputs in
    order: the sender of the latest [init] that carries the id, until a
    connection closes whose own latest [init] carried that id (a truthy
    one).  [seen] are the inputs that came before [inputs], [current] the
    socket registered after them. *)
Fixpoint holder (H : host) (workspaceId : value)
    (seen inputs : list Relay_server.input) (current : option socket)
  : option socket :=
  match inputs with
  | [] => current
  | i :: rest =>
      holder H workspaceId (seen ++ [i])%list rest
        match i with
        | Relay_server.Connection _ => current
        | Relay_server.Message ws data =>
            if decide (init_of H data = Some workspaceId) then Some ws
            else current
        | Relay_server.Close ws =>
            let own := latest_init H ws seen VNull in
            if JS.truthy own && bool_decide (own = workspaceId) then None
            else current
        end
  end.

(** No subprocess besides the probe printed a document with a [type]
    property of its own. *)
Definition untyped_outputs (H : host) (tr : list event) : Prop :=
  ∀ c out doc,
    In (EExec c (Ok out)) tr → c ≠ probe → JSON_parse H out = Ok doc →
    JS.has_own "type" doc = false.

(** The [type] of a message written to a socket. *)
Definition message_type (data : value) : value :=
  match data with
  | VObj props => JS.lookup_prop "type" props
  | _ => VUndefined
  end.

(** ** Scenarios and predicates of the statements *)

(** Two sockets registered under the same workspace, then a chat on the
    first. *)
Definition two_clients : list Relay_server.input :=
  [Relay_server.Connection 1; Relay_server.Connection 2;
   Relay_server.Message 1 (init_text "w1");
   Relay_server.Message 2 (init_text "w1")].

(** A socket that registered under two ids and then closed. *)
Definition renamed_client : list Relay_server.input :=
  [Relay_server.Connection 1;
   Relay_server.Message 1 (init_text "w1");
   Relay_server.Message 1 (init_text "w2");
   Relay_server.Close 1].

(** The text holds a dash. *)
Fixpoint has_dash (s : string) : bool :=
  match s with
  | EmptyString => false
  | String c rest => Ascii.eqb c "-" || has_dash rest
  end.

(** A 200 answer carries the workspace id [id]. *)
Definition answers_with_id (id : string) (r : result response) : Prop :=
  ∀ payload,
    r = Ok (Response 200 payload) →
    JS.get payload "workspaceId" = Ok (VStr id).

(** ** The routes for status, stop and delete *)

Module Lifecycle_routes.
Section handlers.
Variable H : host.

(** [app.get('/api/workspaces/:workspaceId/status', ...)], applied to
    [req.params.workspaceId]. *)
Definition get_status (workspaceId : string) : io response :=
  try_catch
    (status ← DevPodManager.getWorkspaceStatus H (VStr workspaceId);
     mret (res_json 200 status))
    (λ error,
       mret (res_json 500
               (VObj [("success", VBool false);
                      ("error", VStr (error_message error))]))).

(** [app.post('/api/workspaces/:workspaceId/stop', ...)]. *)
Definition post_stop (workspaceId : string) : io response :=
  try_catch
    (result ← DevPodManager.stopWorkspace (VStr workspaceId);
     mret (res_json 200 result))
    (λ error,
       mret (res_json 500
               (VObj [("success", VBool false);
                      ("error", VStr (error_message error))]))).

(** [app.delete('/api/workspaces/:workspaceId', ...)]. *)
Definition delete_workspace (workspaceId : string) : io response :=
  try_catch
    (result ← DevPodManager.deleteWorkspace (VStr workspaceId);
     mret (res_json 200 result))
    (λ error,
       mret (res_json 500
               (VObj [("success", VBool false);
                      ("error", VStr (error_message error))]))).

End handlers.
End Lifecycle_routes.

(** ** The local variant of the server: [class MockDevPodManager] *)

(** The second server of the backend keeps its workspaces in a map of its
    own, [this.workspaces], passed along explicitly here.  The [created]
    date of a workspace is held as the ISO text that [res.json] writes
    for it. *)
Module Local_server.
Section mock.
Variable H : host.

Definition createWorkspace (workspaces : gmap value value)
    (workspaceId repoUrl : value) : io (gmap value value * value) :=
  created ← DateISO Ret;
  mret (<[workspaceId := VObj [("id", workspaceId);
                               ("repoUrl", repoUrl);
                               ("status", VStr "running");
                               ("created", VStr created)]]> workspaces,
        VObj [("success", VBool true);
              ("workspaceId", workspaceId);
              ("status", VStr "created");
              ("output", VStr "Mock workspace created successfully")]).

Definition executeInWorkspace (workspaceId message : value) : io value :=
  try_catch
    (data ← axios_post DevPodManager.api_url
              (VObj [("model", VStr "claude-3-5-sonnet-20241022");
                     ("max_tokens", VNum 4000);
                     ("messages",
                      VArr [VObj [("role", VStr "user");
                                  ("content",
                                   VStr ("You are an AI assistant helping build a React application. The user said: "
                                           +:+ dquote +:+ JS.to_string message
                                           +:+ dquote +:+ ". " +:+ newline
                                           +:+ "          " +:+ newline
                                           +:+ "          Provide helpful guidance for building their React app. Keep responses concise and practical."))]])])
              (DevPodManager.api_config H);
     content ← lift (JS.get data "content");
     first ← lift (JS.get_index content 0);
     text ← lift (JS.get first "text");
     mret (VObj [("success", VBool true);
                 ("response", text);
                 ("context_used", VBool true);
                 ("workspace_updated", VBool true)]))
    (λ error,
       mret (VObj [("success", VBool false);
                   ("error", VStr (error_message error));
                   ("response", VStr "I encountered an error processing your request. Please check the API configuration.")])).

Definition getWorkspaceStatus (workspaces : gmap value value)
    (workspaceId : value) : value :=
  let workspace := default VUndefined (workspaces !! workspaceId) in
  if JS.truthy workspace then workspace
  else VObj [("status", VStr "not_found")].

(** [app.post('/api/workspaces/create', ...)] of the local server.  The
    only statements that can throw come before the map is written. *)
Definition post_create (workspaces : gmap value value) (req_body : value)
  : io (gmap value value * response) :=
  try_catch
    (userId ← lift (JS.destructure "req.body" req_body "userId");
     projectName ← lift (JS.destructure "req.body" req_body "projectName");
     _ ← lift (JS.destructure "req.body" req_body "description");
     if negb (JS.truthy userId) || negb (JS.truthy projectName) then
       mret (workspaces,
             res_json 400
               (VObj [("success", VBool false);
                      ("error", VStr "userId and projectName are required")]))
     else
       now ← DateNow Ret;
       let workspaceId := Routes.make_workspaceId userId now in
       repo_data ← createUsingTemplate
         (VObj [("template_owner", process_env H "GITHUB_TEMPLATE_OWNER");
                ("template_repo", VStr "ai-workspace-template");
                ("owner", process_env H "GITHUB_ORG");
                ("name", VStr workspaceId);
                ("description",
                 VStr ("AI Development Workspace: "
                         +:+ JS.to_string projectName));
                ("private", VBool false)]);
       clone_url ← lift (JS.get repo_data "clone_url");
       created ← createWorkspace workspaces (VStr workspaceId) clone_url;
       html_url ← lift (JS.get repo_data "html_url");
       clone_url' ← lift (JS.get repo_data "clone_url");
       mret (created.1,
             res_json 200
               (VObj [("success", VBool true);
                      ("workspaceId", VStr workspaceId);
                      ("repositoryUrl", html_url);
                      ("cloneUrl", clone_url');
                      ("workspace", created.2)])))
    (λ error,
       mret (workspaces,
             res_json 500
               (VObj [("success", VBool false);
                      ("error", VStr (error_message error))]))).

(** [app.post('/api/workspaces/:workspaceId/chat', ...)] of the local
    server. *)
Definition post_chat (workspaceId : string) (req_body : value)
  : io response :=
  try_catch
    (message ← lift (JS.destructure "req.body" req_body "message");
     if negb (JS.truthy message) then
       mret (res_json 400
               (VObj [("success", VBool false);
                      ("error", VStr "message is required")]))
     else
       result ← executeInWorkspace (VStr workspaceId) message;
       mret (res_json 200 result))
    (λ error,
       mret (res_json 500
               (VObj [("success", VBool false);
                      ("error", VStr (error_message error));
                      ("response", VStr "I encountered an error. Please try again.")]))).

(** [app.get('/api/workspaces/:workspaceId/status', ...)] of the local
    server. *)
Definition get_status (workspaces : gmap value value) (workspaceId : string)
  : response :=
  res_json 200 (getWorkspaceStatus workspaces (VStr workspaceId)).

End mock.
End Local_server.

(** ** The messages of a chat turn on the socket *)

Definition typing_message (status : bool) : value :=
  JS.stringify (VObj [("type", VStr "typing"); ("status", VBool status)]).

Definition response_message (timestamp : string) (result : value) : value :=
  JS.stringify
    (VObj (JS.set_prop "timestamp" (VStr timestamp)
             (JS.spread [("type", VStr "response")] result))).

Definition error_message_to_client (e : error) : value :=
  JS.stringify (VObj [("type", VStr "error");
                      ("error", VStr (error_message e))]).

(** The occurrences of a character in a text. *)
Fixpoint count_char (c : ascii) (s : string) : nat :=
  match s with
  | EmptyString => 0
  | String c' rest => (if Ascii.eqb c' c then 1 else 0) + count_char c rest
  end.

(** The [id] a workspace of the [devpod list] output is compared by. *)
Definition id_matches (workspaceId : value) (w : value) : bool :=
  match JS.get w "id" with
  | Ok id => JS.strict_equals id workspaceId
  | Thrown _ => false
  end.

(** ** Further sample texts and worlds *)

Definition ping_text : string :=
  "{" +:+ quoted "type" +:+ ":" +:+ quoted "ping" +:+ "}".

(** An [init] message without a workspace id. *)
Definition bare_init_text : string :=
  "{" +:+ quoted "type" +:+ ":" +:+ quoted "init" +:+ "}".

Definition listed (id status : string) : value :=
  VObj [("id", VStr id); ("status", VStr status)].

(** What [devpod list --output json] prints for two workspaces. *)
Definition list_text : string :=
  "[{" +:+ quoted "id" +:+ ":" +:+ quoted "w1" +:+ ","
    +:+ quoted "status" +:+ ":" +:+ quoted "Running" +:+ "},{"
    +:+ quoted "id" +:+ ":" +:+ quoted "w2" +:+ ","
    +:+ quoted "status" +:+ ":" +:+ quoted "Stopped" +:+ "}]".

Definition more_documents : list (string * value) :=
  [(ping_text, VObj [("type", VStr "ping")]);
   (bare_init_text, VObj [("type", VStr "init")]);
   (list_text, VArr [listed "w1" "Running"; listed "w2" "Stopped"])].

Definition wide_parse (text : string) : result value :=
  match find (λ kv, String.eqb (fst kv) text) more_documents with
  | Some kv => Ok (snd kv)
  | None => sample_parse text
  end.

Definition wide_host : host := Host wide_parse (λ _, VUndefined).

(** [devpod] is installed and lists two workspaces. *)
Definition world_listing : world :=
  World (λ h c, if String.eqb c "devpod list --output json"
                then Ok list_text
                else exec_reply world_devpod h c)
        (post_reply world_devpod)
        (template_reply world_devpod)
        (now_reply world_devpod)
        (iso_reply world_devpod).

(** GitHub answers and [devpod] is installed, but [devpod up] fails. *)
Definition world_up_fails : world :=
  World (exec_reply world_devpod_down)
        (post_reply world_direct)
        (template_reply world_direct)
        (now_reply world_direct)
        (iso_reply world_direct).

(** No [devpod]; the hosted API answers with an empty [content]. *)
Definition world_empty_answer : world :=
  World (exec_reply world_direct)
        (λ _ _ _ _, Ok (VObj [("content", VArr [])]))
        (template_reply world_direct)
        (now_reply world_direct)
        (iso_reply world_direct).

(** * Properties *)

(** ** Proof engineering *)

(** Keep the building blocks folded while a program is run symbolically. *)
Arguments DevPodManager.available : simpl never.
Arguments DevPodManager.ssh_command : simpl never.
Arguments DevPodManager.api_request : simpl never.
Arguments DevPodManager.api_config : simpl never.
Arguments DevPodManager.find_workspace : simpl never.
Arguments JS.to_string : simpl never.
Arguments JS.stringify : simpl never.
Arguments JS.spread : simpl never.
Arguments JS.replace_method : simpl never.
Arguments JS.get : simpl never.
Arguments JS.get_index : simpl never.
Arguments JS.destructure : simpl never.
Arguments JS.strict_equals : simpl never.
Arguments JS.truthy : simpl never.
Arguments JS.new_Error : simpl never.
Arguments String.append : simpl never.
Arguments Routes.make_workspaceId : simpl never.
Arguments res_json : simpl never.

(** Membership of an event in an explicit trace. *)
Ltac in_trace H :=
  simpl in H; repeat (destruct H as [H | H]); try contradiction; simplify_eq.

(** Run a program symbolically: case on every answer of the outside and
    on every test, in program order. *)
Ltac settle :=
  simpl;
  repeat match goal with
    | |- context [DevPodManager.available ?c] =>
        destruct (DevPodManager.available c) eqn:?; simpl
    | |- context [exec_reply ?w ?h ?c] =>
        destruct (exec_reply w h c) as [?out | ?err] eqn:?; simpl
    | |- context [post_reply ?w ?h ?u ?d ?c] =>
        destruct (post_reply w h u d c) as [?data | ?err] eqn:?; simpl
    | |- context [template_reply ?w ?h ?ps] =>
        destruct (template_reply w h ps) as [?data | ?err] eqn:?; simpl
    | |- context [JSON_parse ?H ?s] =>
        destruct (JSON_parse H s) as [?doc | ?err] eqn:?; simpl
    | |- context [JS.replace_method ?r ?m] =>
        destruct (JS.replace_method r m) as [?esc | ?err] eqn:?; simpl
    | |- context [JS.destructure ?s ?v ?k] =>
        destruct (JS.destructure s v k) as [?field | ?err] eqn:?; simpl
    | |- context [JS.get ?v ?k] =>
        destruct (JS.get v k) as [?field | ?err] eqn:?; simpl
    | |- context [JS.get_index ?v ?k] =>
        destruct (JS.get_index v k) as [?field | ?err] eqn:?; simpl
    | |- context [DevPodManager.find_workspace ?v ?k] =>
        destruct (DevPodManager.find_workspace v k) as [?found | ?err] eqn:?;
        simpl
    | |- context [JS.strict_equals ?a ?b] =>
        destruct (JS.strict_equals a b) eqn:?; simpl
    | |- context [JS.truthy ?v] =>
        destruct (JS.truthy v) eqn:?; simpl
    end.

(** ** The workspace manager reports failures *)

(** No operation of the manager ever throws. *)
Lemma manager_never_throws (H : host) (w : world) (h : list event) (st : relay)
    (op : operation) :
  ∃ v, returned (run w h st (perform H op)) = Ok v.
Proof.
  destruct op as [wid repo | wid msg | wid | wid | wid]; settle; eauto.
Qed.

(** The manager leaves the relay alone. *)
Lemma manager_keeps_state (H : host) (w : world) (h : list event) (st : relay)
    (op : operation) :
  state (run w h st (perform H op)) = st.
Proof.
  destruct op as [wid repo | wid msg | wid | wid | wid]; settle; reflexivity.
Qed.

(** C1, as the code has it: when an external call other than the
    [which devpod] probe raises an error, the operation does not throw but
    returns the value of its [catch] block, which carries the error's
    message: [{success:false, error}] for createWorkspace, stopWorkspace
    and deleteWorkspace, the same with a fixed [response] text for
    executeInWorkspace, and [{status:'error', error}] for
    getWorkspaceStatus. *)
Theorem manager_failure_reported (H : host) (w : world) (h : list event)
    (st : relay) (op : operation) (e : error) :
  rejected e (trace (run w h st (perform H op))) →
  returned (run w h st (perform H op)) = Ok (failure_value op e).
Proof.
  unfold rejected.
  destruct op as [wid repo | wid msg | wid | wid | wid]; settle;
    intros [(c & Hc & Hin) | (u & d & cfg & Hin)]; in_trace Hin;
    try reflexivity; try (exfalso; apply Hc; reflexivity).
Qed.

Lemma manager_failure_reported_witness :
  returned (run world_offline [] relay_init
              (perform sample_host (StopWorkspace (VStr "w1"))))
  = Ok (failure_value (StopWorkspace (VStr "w1"))
          (Error "Command failed: devpod stop w1")).
Proof.
  apply (manager_failure_reported sample_host world_offline [] relay_init
           (StopWorkspace (VStr "w1")) (Error "Command failed: devpod stop w1")).
  left. exists "devpod stop w1". split; [discriminate |].
  vm_compute. left. reflexivity.
Defined.

(** C1 as stated fails: when [devpod list] cannot run, getWorkspaceStatus
    answers [{status:'error', error}], which has no [success] property and
    is not the uniform [{success:false, error}]. *)
Lemma status_failure_not_uniform :
  let o := run world_offline [] relay_init
             (perform sample_host (GetWorkspaceStatus (VStr "w1"))) in
  let e := Error "Command failed: devpod list --output json" in
  rejected e (trace o)
  ∧ returned o = Ok (VObj [("status", VStr "error");
                           ("error", VStr "Command failed: devpod list --output json")])
  ∧ returned o ≠ Ok (uniform_failure e).
Proof.
  vm_compute. split; [| split]; [| reflexivity | discriminate].
  left. exists "devpod list --output json". split; [discriminate |].
  left. reflexivity.
Qed.

(** The same operation's sibling, executeInWorkspace, adds a [response]
    property to the failure value. *)
Example execute_failure_has_response :
  returned (run world_offline [] relay_init
              (perform sample_host (ExecuteInWorkspace (VStr "w1") (VStr "hello"))))
  = Ok (VObj [("success", VBool false);
              ("error", VStr "getaddrinfo ENOTFOUND api.anthropic.com");
              ("response", VStr "I encountered an error processing your request.")]).
Proof. reflexivity. Qed.

(** With [devpod] installed, a failing [devpod up] is reported by
    createWorkspace. *)
Example create_failure_reported :
  returned (run world_devpod_down [] relay_init
              (perform sample_host (CreateWorkspace (VStr "w1") (VStr "repo"))))
  = Ok (VObj [("success", VBool false);
              ("error", VStr "Command failed: devpod up repo --id w1 --provider docker")]).
Proof. reflexivity. Qed.

(** A failing probe is no failure of createWorkspace: the mock branch
    answers [success:true]. *)
Example create_without_devpod :
  returned (run world_offline [] relay_init
              (perform sample_host (CreateWorkspace (VStr "w1") (VStr "repo"))))
  = Ok (VObj [("success", VBool true);
              ("workspaceId", VStr "w1");
              ("status", VStr "created");
              ("output", VStr "Workspace created in mock mode (DevPod not available)");
              ("mode", VStr "mock")]).
Proof. reflexivity. Qed.

(** ** One dispatch call per chat turn *)

(** With [devpod] found, a turn on a string id and a string message is
    the probe and the [devpod ssh] subprocess, and it returns. *)
Lemma devpod_turn (H : host) (w : world) (h : list event) (st : relay)
    (workspaceId m : string) :
  probe_found (exec_reply w h probe) = true →
  let o := run w h st (DevPodManager.executeInWorkspace H (VStr workspaceId)
                         (VStr m)) in
  ∃ r v,
    trace o = [EExec probe (exec_reply w h probe);
               EExec (DevPodManager.ssh_command (VStr workspaceId)
                        (JS.replace_quotes m)) r]
    ∧ returned o = Ok v.
Proof.
  unfold probe, probe_found; simpl.
  destruct (exec_reply w h "which devpod") as [out | e0]; simpl;
    [| discriminate].
  intros ->; simpl. settle; eauto.
Qed.

(** Without [devpod], a turn on a string message is the probe and one
    post to the hosted API, and it returns. *)
Lemma direct_turn (H : host) (w : world) (h : list event) (st : relay)
    (workspaceId : value) (m : string) :
  probe_found (exec_reply w h probe) = false →
  let o := run w h st (DevPodManager.executeInWorkspace H workspaceId (VStr m)) in
  ∃ r v,
    trace o = [EExec probe (exec_reply w h probe);
               EPost DevPodManager.api_url (DevPodManager.api_request (VStr m))
                 (DevPodManager.api_config H) r]
    ∧ returned o = Ok v.
Proof.
  unfold probe, probe_found; simpl.
  destruct (exec_reply w h "which devpod") as [out | e0]; simpl.
  - intros ->; simpl. settle; eauto.
  - intros _. change (DevPodManager.available None) with false.
    settle; eauto.
Qed.

(** C2, as the code has it: a chat turn on a string workspace id and a
    string message first runs the [which devpod] probe, and then makes
    exactly one dispatch call whose settled result ends the trace before
    the turn returns: the [devpod ssh] subprocess when the probe found the
    tool, one HTTP post to the hosted API otherwise. *)
Theorem chat_turn_calls (H : host) (w : world) (h : list event) (st : relay)
    (workspaceId m : string) :
  let o := run w h st (DevPodManager.executeInWorkspace H (VStr workspaceId)
                         (VStr m)) in
  let found := exec_reply w h probe in
  ∃ call v,
    trace o = [EExec probe found; call]
    ∧ returned o = Ok v
    ∧ (count_exec [call] + count_post [call] = 1)%nat
    ∧ (if probe_found found
       then ∃ r, call = EExec (DevPodManager.ssh_command (VStr workspaceId)
                                 (JS.replace_quotes m)) r
       else ∃ r, call = EPost DevPodManager.api_url
                          (DevPodManager.api_request (VStr m))
                          (DevPodManager.api_config H) r).
Proof.
  intros o found. subst o found.
  destruct (probe_found (exec_reply w h probe)) eqn:Efound.
  - destruct (devpod_turn H w h st workspaceId m Efound) as (r & v & Ht & Hv).
    exists (EExec (DevPodManager.ssh_command (VStr workspaceId)
                     (JS.replace_quotes m)) r), v.
    repeat split; eauto.
  - destruct (direct_turn H w h st (VStr workspaceId) m Efound)
      as (r & v & Ht & Hv).
    exists (EPost DevPodManager.api_url (DevPodManager.api_request (VStr m))
              (DevPodManager.api_config H) r), v.
    repeat split; eauto.
Qed.

(** C2 as stated fails: with [devpod] installed a chat turn runs two
    subprocesses (the probe and [devpod ssh]) and posts nothing, so neither
    count is exactly one. *)
Lemma devpod_turn_runs_two_subprocesses :
  let o := run world_devpod [] relay_init
             (DevPodManager.executeInWorkspace sample_host (VStr "w1")
                (VStr "hello")) in
  count_exec (trace o) = 2%nat ∧ count_post (trace o) = 0%nat
  ∧ ¬ (count_exec (trace o) = 1%nat ∨ count_post (trace o) = 1%nat).
Proof.
  vm_compute. split; [reflexivity | split; [reflexivity |]].
  intros [E | E]; discriminate E.
Qed.

(** Without [devpod] the probe is still a subprocess, next to the post. *)
Example direct_turn_trace :
  map (λ ev, (is_exec ev, is_post ev))
    (trace (run world_direct [] relay_init
              (DevPodManager.executeInWorkspace sample_host (VStr "w1")
                 (VStr "hello"))))
  = [(true, false); (false, true)].
Proof. reflexivity. Qed.

(** ** The shell command of the DevPod branch *)

Lemma replace_quotes_spec (s : string) : JS.replace_quotes s = escape_spec s.
Proof.
  unfold escape_spec.
  induction s as [| c s IH]; [reflexivity |].
  cbn [JS.replace_quotes list_ascii_of_string fold_right].
  rewrite <- IH. unfold escape_char.
  destruct (Ascii.eqb c "'"); reflexivity.
Qed.

(** C9: with [devpod] found, the command handed to the shell for a string
    workspace id and a string message is the text [devpod ssh], the
    characters of the workspace id unchanged, and the handler invocation
    with the message between single quotes, each single quote of the
    message replaced by quote-backslash-quote-quote. *)
Theorem ssh_command_quoting (H : host) (w : world) (h : list event)
    (st : relay) (workspaceId m : string) :
  probe_found (exec_reply w h probe) = true →
  ∃ r, trace (run w h st (DevPodManager.executeInWorkspace H (VStr workspaceId)
                            (VStr m)))
       = [EExec probe (exec_reply w h probe);
          EExec ("devpod ssh " +:+ workspaceId +:+ " --command "
                   +:+ dquote
                   +:+ "cd /workspace && python3 .devcontainer/claude-handler.py '"
                   +:+ escape_spec m +:+ "'" +:+ dquote) r].
Proof.
  intros Hfound.
  destruct (devpod_turn H w h st workspaceId m Hfound) as (r & v & Ht & _).
  exists r. rewrite Ht. unfold DevPodManager.ssh_command.
  rewrite replace_quotes_spec.
  by change (JS.to_string (VStr workspaceId)) with workspaceId.
Qed.

Lemma ssh_command_quoting_witness :
  ∃ r, trace (run world_devpod [] relay_init
                (DevPodManager.executeInWorkspace sample_host
                   (VStr "w1; id") (VStr "it's")))
       = [EExec probe (exec_reply world_devpod [] probe);
          EExec ("devpod ssh " +:+ "w1; id" +:+ " --command "
                   +:+ dquote
                   +:+ "cd /workspace && python3 .devcontainer/claude-handler.py '"
                   +:+ escape_spec "it's" +:+ "'" +:+ dquote) r].
Proof.
  apply (ssh_command_quoting sample_host world_devpod [] relay_init
           "w1; id" "it's").
  vm_compute. reflexivity.
Defined.

(** The quote of the message is escaped, the semicolon of the workspace
    id is not. *)
Example ssh_command_sample :
  DevPodManager.ssh_command (VStr "w1; id") (JS.replace_quotes "it's")
  = "devpod ssh w1; id --command " +:+ dquote
      +:+ "cd /workspace && python3 .devcontainer/claude-handler.py 'it'\''s'"
      +:+ dquote.
Proof. reflexivity. Qed.

(** ** Rejected chat calls *)

(** C7: a chat request whose [message] is empty or missing (or falsy in
    any other way) is answered 400 with
    [{success:false, error:'message is required'}]; nothing is called and
    the relay is untouched. *)
Theorem chat_requires_message (H : host) (w : world) (h : list event)
    (st : relay) (workspaceId : string) (req_body message : value) :
  JS.destructure "req.body" req_body "message" = Ok message →
  JS.truthy message = false →
  run w h st (Routes.post_chat H workspaceId req_body)
  = Outcome (Ok (Response 400 (VObj [("success", VBool false);
                                     ("error", VStr "message is required")])))
      st [].
Proof.
  intros Hm Hf. unfold Routes.post_chat. rewrite Hm. simpl. rewrite Hf.
  reflexivity.
Qed.

Lemma chat_requires_message_witness :
  run world_direct [] relay_init
    (Routes.post_chat sample_host "w1" (VObj [("message", VStr "")]))
  = Outcome (Ok (Response 400 (VObj [("success", VBool false);
                                     ("error", VStr "message is required")])))
      relay_init [].
Proof.
  apply (chat_requires_message sample_host world_direct [] relay_init "w1"
           (VObj [("message", VStr "")]) (VStr ""));
    reflexivity.
Defined.

(** The missing field and the empty string are both falsy. *)
Lemma empty_or_missing_falsy (req_body : value) (props : list (string * value)) :
  req_body = VObj props →
  JS.lookup_prop "message" props = VUndefined
  ∨ JS.lookup_prop "message" props = VStr "" →
  ∃ message,
    JS.destructure "req.body" req_body "message" = Ok message
    ∧ JS.truthy message = false.
Proof.
  intros -> [E | E]; exists (JS.lookup_prop "message" props);
    (split; [reflexivity | by rewrite E]).
Qed.

Example chat_without_message :
  run world_direct [] relay_init (Routes.post_chat sample_host "w1" (VObj []))
  = Outcome (Ok (Response 400 (VObj [("success", VBool false);
                                     ("error", VStr "message is required")])))
      relay_init [].
Proof. reflexivity. Qed.

(** C10: a socket message of type [chat] whose [workspaceId] or
    [message] is empty or missing (or falsy in any other way) is dropped:
    nothing is written to the socket, nothing is called, the relay is
    untouched. *)
Theorem socket_chat_dropped (H : host) (w : world) (h : list event)
    (st : relay) (ws : socket) (data : string)
    (props : list (string * value)) :
  JSON_parse H data = Ok (VObj props) →
  JS.lookup_prop "type" props = VStr "chat" →
  JS.truthy (JS.lookup_prop "workspaceId" props) = false
  ∨ JS.truthy (JS.lookup_prop "message" props) = false →
  run w h st (Relay_server.on_message H ws data) = Outcome (Ok ()) st [].
Proof.
  intros Hp Ht Hf.
  unfold Relay_server.on_message, Relay_server.dispatch.
  rewrite Hp. simpl. rewrite Ht. change (JS.strict_equals (VStr "chat") (VStr "init")) with false.
  change (JS.strict_equals (VStr "chat") (VStr "chat")) with true.
  destruct Hf as [-> | ->]; [| rewrite andb_false_r]; reflexivity.
Qed.

Lemma socket_chat_dropped_witness :
  run world_direct [] relay_init
    (Relay_server.on_message sample_host 7%nat (chat_text "w1" ""))
  = Outcome (Ok ()) relay_init [].
Proof.
  apply (socket_chat_dropped sample_host world_direct [] relay_init 7%nat
           (chat_text "w1" "")
           [("type", VStr "chat"); ("workspaceId", VStr "w1");
            ("message", VStr "")]).
  - reflexivity.
  - reflexivity.
  - right. reflexivity.
Defined.

(** ** What the relay writes to a socket *)

Lemma stringify_array (items : list value) :
  JS.stringify (VArr items)
  = VArr (map (λ x, match x with
                    | VUndefined => VNull
                    | _ => JS.stringify x
                    end) items).
Proof. reflexivity. Qed.

Lemma stringify_object (props : list (string * value)) :
  JS.stringify (VObj props) = VObj (JS.keep_defined JS.stringify props).
Proof. reflexivity. Qed.

Lemma keep_defined_cons (f : value → value) (k : string) (x : value)
    (rest : list (string * value)) :
  JS.keep_defined f ((k, x) :: rest)
  = match x with
    | VUndefined => JS.keep_defined f rest
    | _ => (k, f x) :: JS.keep_defined f rest
    end.
Proof. by destruct x. Qed.

Lemma stringify_json (v : value) : JS.is_json v = true → JS.stringify v = v.
Proof.
  induction v as [| | b | n | s | items IH | props IH] using value_ind;
    intros Hj; try reflexivity.
  - rewrite stringify_array. f_equal.
    change (forallb JS.is_json items = true) in Hj.
    induction IH as [| x l Hx _ IHl]; [reflexivity |].
    cbn [forallb] in Hj. apply andb_prop in Hj as [Hjx Hjl].
    cbn [map]. rewrite (IHl Hjl), (Hx Hjx). by destruct x.
  - rewrite stringify_object. f_equal.
    change (forallb (λ kv, JS.is_json kv.2) props = true) in Hj.
    induction IH as [| [k x] l Hx _ IHl]; [reflexivity |].
    cbn [forallb] in Hj. apply andb_prop in Hj as [Hjx Hjl].
    cbn [snd] in Hx, Hjx.
    rewrite keep_defined_cons, (IHl Hjl), (Hx Hjx). by destruct x.
Qed.

(** C6: an [init] message that carries a workspace id is answered, on the
    socket it came from, by one [connected] message with that same id. *)
Theorem init_acknowledged (H : host) (w : world) (h : list event) (st : relay)
    (ws : socket) (data : string) (props : list (string * value))
    (workspaceId : value) :
  JSON_parse H data = Ok (VObj props) →
  JS.lookup_prop "type" props = VStr "init" →
  JS.lookup_prop "workspaceId" props = workspaceId →
  JS.is_json workspaceId = true →
  trace (run w h st (Relay_server.on_message H ws data))
  = [ESend ws (VObj [("type", VStr "connected"); ("workspaceId", workspaceId)])].
Proof.
  intros Hp Ht Hw Hj.
  unfold Relay_server.on_message, Relay_server.dispatch.
  rewrite Hp. simpl. rewrite Ht, Hw.
  change (JS.strict_equals (VStr "init") (VStr "init")) with true.
  change (JS.strict_equals (VStr "init") (VStr "chat")) with false.
  simpl.
  rewrite (stringify_json (VObj [("type", VStr "connected");
                                 ("workspaceId", workspaceId)]));
    [reflexivity |].
  cbn. by rewrite Hj.
Qed.

Lemma init_acknowledged_witness :
  trace (run world_direct [] relay_init
           (Relay_server.on_message sample_host 7%nat (init_text "w1")))
  = [ESend 7%nat (VObj [("type", VStr "connected"); ("workspaceId", VStr "w1")])].
Proof.
  apply (init_acknowledged sample_host world_direct [] relay_init 7%nat
           (init_text "w1") [("type", VStr "init"); ("workspaceId", VStr "w1")]
           (VStr "w1"));
    reflexivity.
Defined.

(** Every message a handler writes goes to the socket it serves. *)
Lemma handler_writes_own_socket (H : host) (w : world) (h : list event)
    (st : relay) (ws : socket) (data : string) (ws' : socket) (d : value) :
  In (ESend ws' d) (trace (run w h st (Relay_server.on_message H ws data))) →
  ws' = ws.
Proof.
  unfold Relay_server.on_message, Relay_server.dispatch.
  settle; intros Hin; in_trace Hin; reflexivity.
Qed.

(** C5: whatever happened before (in particular after both sockets sent
    their [init]), nothing the server writes while it handles a message of
    socket [a] goes to another socket [b]. *)
Theorem no_cross_delivery (H : host) (w : world) (h : list event) (st : relay)
    (a b : socket) (data : string) (d : value) :
  a ≠ b →
  ¬ In (ESend b d) (trace (run w h st (Relay_server.on_message H a data))).
Proof.
  intros Hab Hin. apply handler_writes_own_socket in Hin. by subst.
Qed.

Lemma no_cross_delivery_witness :
  let '(st, h) := Relay_server.serve sample_host world_direct [] relay_init
                    two_clients in
  ¬ In (ESend 2 (VObj [("type", VStr "typing"); ("status", VBool true)]))
      (trace (run world_direct h st
                (Relay_server.on_message sample_host 1 (chat_text "w1" "hello")))).
Proof.
  destruct (Relay_server.serve sample_host world_direct [] relay_init two_clients)
    as [st h].
  apply (no_cross_delivery sample_host world_direct h st 1%nat 2%nat
           (chat_text "w1" "hello")
           (VObj [("type", VStr "typing"); ("status", VBool true)])).
  discriminate.
Defined.

Example chat_after_two_inits :
  let '(st, h) := Relay_server.serve sample_host world_direct [] relay_init
                    two_clients in
  map (λ ev, match ev with ESend ws d => Some (ws, message_type d) | _ => None end)
    (trace (run world_direct h st
              (Relay_server.on_message sample_host 1 (chat_text "w1" "hello"))))
  = [Some (1%nat, VStr "typing"); None; None; None;
     Some (1%nat, VStr "response"); Some (1%nat, VStr "typing")].
Proof. vm_compute. reflexivity. Qed.

(** ** The types of the messages written *)

Lemma lookup_set_prop (key key' : string) (v : value)
    (props : list (string * value)) :
  JS.lookup_prop key (JS.set_prop key' v props)
  = if String.eqb key' key then v else JS.lookup_prop key props.
Proof.
  unfold JS.lookup_prop.
  induction props as [| [k old] rest IH]; cbn [JS.set_prop find fst snd].
  - destruct (String.eqb key' key); reflexivity.
  - destruct (String.eqb k key') eqn:Ek; cbn [find fst snd].
    + apply String.eqb_eq in Ek as ->.
      destruct (String.eqb key' key); reflexivity.
    + destruct (String.eqb k key) eqn:Ekk; [| exact IH].
      apply String.eqb_eq in Ekk as ->.
      rewrite String.eqb_sym in Ek. by rewrite Ek.
Qed.

Lemma lookup_spread (key : string) (ps acc : list (string * value)) :
  existsb (λ kv, String.eqb kv.1 key) ps = false →
  JS.lookup_prop key (fold_left (λ o kv, JS.set_prop kv.1 kv.2 o) ps acc)
  = JS.lookup_prop key acc.
Proof.
  revert acc. induction ps as [| [k x] rest IH]; intros acc Hno; [reflexivity |].
  cbn [existsb fst] in Hno. apply orb_false_elim in Hno as [Hk Hrest].
  cbn [fold_left fst snd]. rewrite (IH _ Hrest), lookup_set_prop.
  by rewrite Hk.
Qed.

Lemma lookup_keep_defined (f : value → value) (key : string)
    (props : list (string * value)) :
  JS.lookup_prop key props ≠ VUndefined →
  JS.lookup_prop key (JS.keep_defined f props) = f (JS.lookup_prop key props).
Proof.
  unfold JS.lookup_prop.
  induction props as [| [k x] rest IH]; intros Hdef; [done |].
  rewrite keep_defined_cons. cbn [find fst snd] in *.
  destruct (String.eqb k key) eqn:Ek.
  - destruct x; try done; cbn [find fst snd]; by rewrite Ek.
  - destruct x; try (by apply IH); cbn [find fst snd]; rewrite Ek; by apply IH.
Qed.

(** The [response] message keeps its type unless the spread result
    brings one. *)
Lemma response_type (timestamp : string) (result : value) :
  JS.has_own "type" result = false →
  message_type
    (JS.stringify
       (VObj (JS.set_prop "timestamp" (VStr timestamp)
                (JS.spread [("type", VStr "response")] result))))
  = VStr "response".
Proof.
  intros Hno. rewrite stringify_object. cbn [message_type].
  assert (JS.lookup_prop "type"
            (JS.set_prop "timestamp" (VStr timestamp)
               (JS.spread [("type", VStr "response")] result))
          = VStr "response") as E.
  { rewrite lookup_set_prop. cbn [String.eqb Ascii.eqb Bool.eqb].
    unfold JS.spread. by rewrite lookup_spread. }
  rewrite lookup_keep_defined; rewrite E; done.
Qed.

Lemma ssh_command_not_probe (workspaceId : value) (escapedMessage : string) :
  DevPodManager.ssh_command workspaceId escapedMessage ≠ probe.
Proof. discriminate. Qed.

Ltac find_event := simpl; repeat ((left; reflexivity) || right).

(** C3, as the code has it: every message the server writes in answer to
    a client message has type [connected], [typing], [response] or [error]
    (the [catch] branch writes [error]), as long as no workspace handler
    output carries a [type] property of its own, which the spread
    [...result] would put in place of [response]. *)
Theorem reply_types (H : host) (w : world) (h : list event) (st : relay)
    (ws : socket) (data : string) (ws' : socket) (d : value) :
  untyped_outputs H (trace (run w h st (Relay_server.on_message H ws data))) →
  In (ESend ws' d) (trace (run w h st (Relay_server.on_message H ws data))) →
  In (message_type d)
    [VStr "connected"; VStr "typing"; VStr "response"; VStr "error"].
Proof.
  unfold Relay_server.on_message, Relay_server.dispatch, untyped_outputs.
  settle; intros Hu Hin; in_trace Hin;
    first
      [ rewrite response_type;
        [ simpl; tauto
        | first [ reflexivity
                | eapply Hu;
                  [ | | eassumption ];
                  [ find_event | apply ssh_command_not_probe ] ] ]
      | vm_compute; tauto ].
Qed.

Lemma reply_types_witness :
  In (message_type
        (VObj [("type", VStr "response"); ("success", VBool true);
               ("response", VStr "Done.");
               ("timestamp", VStr "2025-06-16T19:04:00.000Z")]))
    [VStr "connected"; VStr "typing"; VStr "response"; VStr "error"].
Proof.
  apply (reply_types sample_host world_devpod [] relay_init 7
           (chat_text "w1" "hello") 7).
  - intros c out doc Hin Hc Hparse. vm_compute in Hin.
    destruct Hin as [Hin | [Hin | [Hin | [Hin | [Hin | [Hin | []]]]]]];
      try discriminate Hin.
    + injection Hin as <- <-. by destruct Hc.
    + injection Hin as <- <-. vm_compute in Hparse.
      injection Hparse as <-. reflexivity.
  - vm_compute. do 4 right. left. reflexivity.
Defined.

(** C3 as stated fails: a client text that is not JSON is answered by a
    message of type [error]. *)
Lemma error_reply_on_bad_json :
  trace (run world_direct [] relay_init
           (Relay_server.on_message sample_host 7 "not json"))
  = [ESend 7 (VObj [("type", VStr "error");
                    ("error", VStr "Unexpected token in JSON")])]
  ∧ ¬ In (VStr "error") [VStr "connected"; VStr "typing"; VStr "response"].
Proof.
  split; [reflexivity |].
  intros [E | [E | [E | []]]]; discriminate E.
Qed.

(** A handler output with a [type] of its own replaces [response]. *)
Example typed_output_overrides_response :
  map (λ ev, match ev with ESend _ d => Some (message_type d) | _ => None end)
    (trace (run world_devpod_typed [] relay_init
              (Relay_server.on_message sample_host 7 (chat_text "w1" "hello"))))
  = [Some (VStr "typing"); None; None; None;
     Some (VStr "progress"); Some (VStr "typing")].
Proof. vm_compute. reflexivity. Qed.

(** ** The connection table *)

Lemma strict_equals_string (v : value) (s : string) :
  JS.strict_equals v (VStr s) = true → v = VStr s.
Proof.
  destruct v; try discriminate. unfold JS.strict_equals.
  by intros ->%String.eqb_eq.
Qed.

(** What a client message does to the relay: an [init] sets the closure
    variable and the table entry, anything else leaves both alone. *)
Lemma on_message_state (H : host) (w : world) (h : list event) (st : relay)
    (ws : socket) (data : string) :
  state (run w h st (Relay_server.on_message H ws data))
  = match init_of H data with
    | Some workspaceId =>
        Relay (<[workspaceId := ws]> (activeConnections st))
              (<[ws := workspaceId]> (connectionWorkspaceId st))
    | None => st
    end.
Proof.
  unfold Relay_server.on_message, Relay_server.dispatch, init_of.
  destruct (JSON_parse H data) as [doc | e]; [| reflexivity].
  destruct doc as [| | b | n | s | items | props]; try reflexivity.
  simpl.
  destruct (JS.strict_equals (JS.lookup_prop "type" props) (VStr "init"))
    eqn:Einit.
  - apply strict_equals_string in Einit as ->. reflexivity.
  - settle; reflexivity.
Qed.

Lemma on_close_state (w : world) (h : list event) (st : relay) (ws : socket) :
  state (run w h st (Relay_server.on_close ws))
  = let current := default VNull (connectionWorkspaceId st !! ws) in
    if JS.truthy current
    then Relay (delete current (activeConnections st)) (connectionWorkspaceId st)
    else st.
Proof.
  unfold Relay_server.on_close. simpl.
  destruct (JS.truthy (default VNull (connectionWorkspaceId st !! ws)));
    reflexivity.
Qed.

Lemma serve_app (H : host) (w : world) (xs ys : list Relay_server.input) :
  ∀ h st,
    Relay_server.serve H w h st (xs ++ ys)%list
    = let '(st1, tr1) := Relay_server.serve H w h st xs in
      let '(st2, tr2) := Relay_server.serve H w (h ++ tr1)%list st1 ys in
      (st2, (tr1 ++ tr2)%list).
Proof.
  induction xs as [| i xs IH]; intros h st.
  - cbn [app Relay_server.serve]. rewrite app_nil_r.
    by destruct (Relay_server.serve H w h st ys).
  - cbn [app Relay_server.serve]. rewrite IH.
    destruct (Relay_server.serve H w _ _ xs) as [st1 tr1].
    rewrite <- app_assoc.
    destruct (Relay_server.serve H w _ st1 ys) as [st2 tr2].
    by rewrite app_assoc.
Qed.

(** The closure variable of a connection holds the id of its latest
    [init]. *)
Lemma closure_holds_latest_init (H : host) (w : world) (ws : socket)
    (inputs : list Relay_server.input) :
  ∀ h st,
    default VNull
      (connectionWorkspaceId (Relay_server.serve H w h st inputs).1 !! ws)
    = latest_init H ws inputs (default VNull (connectionWorkspaceId st !! ws)).
Proof.
  induction inputs as [| i rest IH]; intros h st; [reflexivity |].
  cbn [Relay_server.serve].
  destruct (Relay_server.serve H w _ _ rest) as [st' tr] eqn:Erest.
  cbn [fst]. change st' with (st', tr).1. rewrite <- Erest, IH.
  destruct i as [ws' | ws' data | ws']; cbn [latest_init Relay_server.handler].
  - f_equal. simpl. destruct (decide (ws' = ws)) as [-> |].
    + by rewrite lookup_insert_eq.
    + by rewrite lookup_insert_ne.
  - f_equal. rewrite on_message_state.
    destruct (init_of H data) as [workspaceId |]; cbn [default].
    + cbn [connectionWorkspaceId]. destruct (decide (ws' = ws)) as [-> |].
      * by rewrite lookup_insert_eq.
      * by rewrite lookup_insert_ne.
    + by destruct (decide (ws' = ws)).
  - f_equal. rewrite on_close_state. cbv zeta.
    by destruct (JS.truthy _).
Qed.

Lemma latest_init_app (H : host) (ws : socket)
    (xs ys : list Relay_server.input) :
  ∀ current,
    latest_init H ws (xs ++ ys)%list current
    = latest_init H ws ys (latest_init H ws xs current).
Proof.
  induction xs as [| i xs IH]; intros current; [reflexivity |].
  destruct i; cbn [app latest_init]; apply IH.
Qed.

(** From any state whose closure variables hold the latest [init] ids of
    the inputs seen so far, serving further inputs leaves under an id the
    socket that [holder] names. *)
Lemma table_holder_from (H : host) (w : world) (workspaceId : value)
    (inputs : list Relay_server.input) :
  ∀ seen h st,
    (∀ ws, default VNull (connectionWorkspaceId st !! ws)
           = latest_init H ws seen VNull) →
    activeConnections (Relay_server.serve H w h st inputs).1 !! workspaceId
    = holder H workspaceId seen inputs (activeConnections st !! workspaceId).
Proof.
  induction inputs as [| i rest IH]; intros seen h st Hvars; [reflexivity |].
  cbn [Relay_server.serve holder].
  destruct (Relay_server.serve H w _ _ rest) as [st' tr] eqn:Erest.
  cbn [fst]. change st' with (st', tr).1. rewrite <- Erest.
  rewrite (IH (seen ++ [i])%list).
  - f_equal. destruct i as [ws' | ws' data | ws'];
      cbn [Relay_server.handler].
    + reflexivity.
    + rewrite on_message_state.
      destruct (init_of H data) as [v |]; cbn [activeConnections].
      * destruct (decide (Some v = Some workspaceId)) as [[= ->] | Hne].
        -- by rewrite lookup_insert_eq.
        -- rewrite lookup_insert_ne; [reflexivity | congruence].
      * by destruct (decide (None = Some workspaceId)).
    + rewrite on_close_state. cbv zeta. rewrite Hvars.
      destruct (JS.truthy (latest_init H ws' seen VNull)); [| reflexivity].
      cbn [andb activeConnections].
      destruct (bool_decide_reflect
                  (latest_init H ws' seen VNull = workspaceId)) as [-> | Hne].
      * by rewrite lookup_delete_eq.
      * by rewrite lookup_delete_ne.
  - intros ws. rewrite latest_init_app, <- Hvars.
    destruct i as [ws' | ws' data | ws'];
      cbn [Relay_server.handler latest_init].
    + simpl. destruct (decide (ws' = ws)) as [-> |].
      * by rewrite lookup_insert_eq.
      * by rewrite lookup_insert_ne.
    + rewrite on_message_state.
      destruct (init_of H data) as [v |]; cbn [default connectionWorkspaceId].
      * destruct (decide (ws' = ws)) as [-> |].
        -- by rewrite lookup_insert_eq.
        -- by rewrite lookup_insert_ne.
      * by destruct (decide (ws' = ws)).
    + rewrite on_close_state. cbv zeta. by destruct (JS.truthy _).
Qed.

(** C4, as the code has it, for a workspace id that is not an array or an
    object: after any sequence of connections, messages and closes the
    table holds under the id at most the one socket [holder] names, the
    sender of the latest [init] with that id unless a connection whose own
    latest [init] carried the id has closed since; and when a socket
    closes, the entry under the id of that socket's latest [init] (when
    that id is truthy) is gone. *)
Theorem connection_table_holder (H : host) (w : world)
    (inputs : list Relay_server.input) (ws : socket) (workspaceId : value) :
  primitive workspaceId = true →
  let table := λ inputs,
    activeConnections (Relay_server.serve H w [] relay_init inputs).1 in
  table inputs !! workspaceId = holder H workspaceId [] inputs None
  ∧ (latest_init H ws inputs VNull = workspaceId →
     JS.truthy workspaceId = true →
     table (inputs ++ [Relay_server.Close ws])%list !! workspaceId = None).
Proof.
  intros _ table. subst table. cbv beta. split.
  - by rewrite (table_holder_from H w workspaceId inputs []).
  - intros Hlatest Htruthy. rewrite serve_app.
    pose proof (closure_holds_latest_init H w ws inputs [] relay_init) as Hvar.
    destruct (Relay_server.serve H w [] relay_init inputs) as [st1 tr1].
    cbn [fst] in Hvar.
    cbn [Relay_server.serve Relay_server.handler fst].
    rewrite on_close_state. cbv zeta. rewrite Hvar.
    change (default VNull (connectionWorkspaceId relay_init !! ws)) with VNull.
    rewrite Hlatest, Htruthy. apply lookup_delete_eq.
Qed.

Lemma connection_table_holder_witness :
  let inputs := [Relay_server.Connection 1%nat;
                 Relay_server.Message 2%nat (init_text "w1");
                 Relay_server.Message 1%nat (init_text "w1");
                 Relay_server.Message 1%nat (chat_text "w1" "hello")] in
  let table := λ inputs,
    activeConnections
      (Relay_server.serve sample_host world_direct [] relay_init inputs).1 in
  table inputs !! VStr "w1" = Some 1%nat
  ∧ table (inputs ++ [Relay_server.Close 1%nat])%list !! VStr "w1" = None.
Proof.
  intros inputs table.
  destruct (connection_table_holder sample_host world_direct inputs 1%nat
              (VStr "w1") eq_refl) as [Hholder Hclose].
  split; [exact Hholder | apply Hclose; reflexivity].
Defined.

(** C4 as stated fails: after socket 1 has closed, the table still maps
    the id of its first [init] to it. *)
Lemma closed_socket_stays_in_table :
  let st := (Relay_server.serve sample_host world_direct [] relay_init
               renamed_client).1 in
  activeConnections st !! VStr "w1" = Some 1%nat
  ∧ activeConnections st !! VStr "w2" = None.
Proof. vm_compute. split; reflexivity. Qed.

(** The guard [if (connectionWorkspaceId)] keeps the entry of a socket
    that registered under the empty id. *)
Example empty_id_stays_in_table :
  activeConnections
    (Relay_server.serve sample_host world_direct [] relay_init
       [Relay_server.Connection 1; Relay_server.Message 1 (init_text "");
        Relay_server.Close 1]).1 !! VStr ""
  = Some 1%nat.
Proof. vm_compute. reflexivity. Qed.

(** Closing a socket also removes the entry of a live socket that took
    over its id. *)
Example close_removes_successor :
  activeConnections
    (Relay_server.serve sample_host world_direct [] relay_init
       (two_clients ++ [Relay_server.Close 1])).1 !! VStr "w1"
  = None.
Proof. vm_compute. reflexivity. Qed.

(** ** Workspace identifiers *)

Lemma append_nil (t : string) : "" +:+ t = t.
Proof. reflexivity. Qed.

Lemma append_cons (c : ascii) (s t : string) :
  String c s +:+ t = String c (s +:+ t).
Proof. reflexivity. Qed.

Lemma has_dash_separator (u d : string) :
  has_dash (u +:+ String "-" d) = true.
Proof.
  induction u as [| c u IH].
  - reflexivity.
  - rewrite append_cons. cbn [has_dash]. rewrite IH. apply orb_true_r.
Qed.

Lemma digits_no_dash (d : Decimal.uint) :
  has_dash (NilEmpty.string_of_uint d) = false.
Proof. induction d; simpl; auto. Qed.

Lemma string_of_Z_no_dash (t : Z) : (0 ≤ t)%Z → has_dash (JS.string_of_Z t) = false.
Proof.
  intros Ht. unfold JS.string_of_Z. destruct t as [| p | p]; [reflexivity | | lia].
  cbn [Z.to_int NilZero.string_of_int]. unfold NilZero.string_of_uint.
  pose proof (digits_no_dash (Pos.to_uint p)) as Hd.
  by destruct (Pos.to_uint p).
Qed.

Lemma to_int_not_nil (t : Z) :
  Z.to_int t ≠ Decimal.Pos Decimal.Nil ∧ Z.to_int t ≠ Decimal.Neg Decimal.Nil.
Proof.
  destruct t as [| p | p]; cbn [Z.to_int]; split; try discriminate;
    intros [= E]; by apply DecimalPos.Unsigned.to_uint_nonnil in E.
Qed.

Lemma string_of_Z_inj (t1 t2 : Z) :
  JS.string_of_Z t1 = JS.string_of_Z t2 → t1 = t2.
Proof.
  unfold JS.string_of_Z. intros E.
  apply DecimalZ.to_int_inj.
  apply (f_equal NilZero.int_of_string) in E.
  destruct (to_int_not_nil t1), (to_int_not_nil t2).
  rewrite !NilZero.isi in E by assumption. by injection E.
Qed.

(** A text that ends in a dash and a dash-free suffix determines the
    suffix. *)
Lemma suffix_after_last_dash (u1 u2 d1 d2 : string) :
  has_dash d1 = false → has_dash d2 = false →
  u1 +:+ String "-" d1 = u2 +:+ String "-" d2 → d1 = d2.
Proof.
  intros H1 H2. revert u2.
  induction u1 as [| c u1 IH]; intros [| c' u2];
    rewrite ?append_nil, ?append_cons; intros E.
  - by injection E.
  - injection E as _ E. rewrite E, has_dash_separator in H1. discriminate.
  - injection E as _ E. rewrite <- E, has_dash_separator in H2. discriminate.
  - injection E as _ E. by apply (IH u2).
Qed.

(** Identifiers made at different (non-negative) clock readings differ,
    whoever the users are. *)
Lemma ids_differ_by_time (userId1 userId2 : value) (t1 t2 : Z) :
  (0 ≤ t1)%Z → (0 ≤ t2)%Z → t1 ≠ t2 →
  Routes.make_workspaceId userId1 t1 ≠ Routes.make_workspaceId userId2 t2.
Proof.
  intros H1 H2 Hne E. apply Hne, string_of_Z_inj.
  unfold Routes.make_workspaceId in E.
  apply (inj (String.app "workspace-")) in E.
  apply (suffix_after_last_dash _ _ _ _
           (string_of_Z_no_dash t1 H1) (string_of_Z_no_dash t2 H2) E).
Qed.

Lemma destructure_defined (source : string) (v : value) (key key' : string)
    (x : value) :
  JS.destructure source v key = Ok x →
  ∃ y, JS.destructure source v key' = Ok y.
Proof. destruct v; try discriminate; intros _; eexists; reflexivity. Qed.

(** C8, as the code has it: a creation request whose [userId] and
    [projectName] are non-empty strings, served at a clock reading in the
    range of [Date.now()], gets the id [workspace-<userId>-<clock>], used
    as the repository name and returned in the response; an id made for
    any user at another clock reading differs from it. *)
Theorem created_workspace_id (H : host) (w : world) (h : list event)
    (st : relay) (req_body : value) (userId projectName : string) :
  JS.destructure "req.body" req_body "userId" = Ok (VStr userId) →
  JS.destructure "req.body" req_body "projectName" = Ok (VStr projectName) →
  userId ≠ "" →
  projectName ≠ "" →
  (0 ≤ now_reply w h < 10 ^ 21)%Z →
  let o := run w h st (Routes.post_create H req_body) in
  let now := now_reply w h in
  let workspaceId :=
    "workspace-" +:+ userId +:+ "-" +:+ JS.string_of_Z now in
  (∃ params r rest,
     trace o = ENow now :: ETemplate params r :: rest
     ∧ JS.get params "name" = Ok (VStr workspaceId))
  ∧ (∀ payload,
       returned o = Ok (Response 200 payload) →
       JS.get payload "workspaceId" = Ok (VStr workspaceId))
  ∧ (∀ (userId' : string) (now' : Z),
       (0 ≤ now' < 10 ^ 21)%Z → now' ≠ now →
       Routes.make_workspaceId (VStr userId') now' ≠ workspaceId).
Proof.
  intros Hu Hp Hne_u Hne_p Hnow o now workspaceId.
  assert (JS.truthy (VStr userId) = true) as Htu
    by (change (negb (String.eqb userId "") = true);
        by rewrite (proj2 (String.eqb_neq _ _) Hne_u)).
  assert (JS.truthy (VStr projectName) = true) as Htp
    by (change (negb (String.eqb projectName "") = true);
        by rewrite (proj2 (String.eqb_neq _ _) Hne_p)).
  destruct (destructure_defined _ _ _ "description" _ Hu) as [description Hd].
  split; [| split].
  - subst o. unfold Routes.post_create. rewrite Hu, Hp, Hd. simpl.
    rewrite Htu, Htp. simpl. eexists _, _, _. split; reflexivity.
  - change (answers_with_id workspaceId (returned o)).
    subst o. unfold Routes.post_create.
    rewrite Hu, Hp, Hd. simpl. rewrite Htu, Htp.
    settle; unfold answers_with_id, res_json; intros payload [= <-];
      reflexivity.
  - intros userId' now' Hnow' Hne.
    apply (ids_differ_by_time (VStr userId') (VStr userId) now' now);
      [lia | subst now; lia | exact Hne].
Qed.

Lemma created_workspace_id_witness :
  let req_body := VObj [("userId", VStr "ada"); ("projectName", VStr "shop")] in
  let o := run world_direct [] relay_init (Routes.post_create sample_host req_body) in
  let workspaceId := "workspace-" +:+ "ada" +:+ "-" +:+ "1750100640000" in
  (∃ params r rest,
     trace o = ENow 1750100640000 :: ETemplate params r :: rest
     ∧ JS.get params "name" = Ok (VStr workspaceId))
  ∧ (∀ payload,
       returned o = Ok (Response 200 payload) →
       JS.get payload "workspaceId" = Ok (VStr workspaceId))
  ∧ (∀ (userId' : string) (now' : Z),
       (0 ≤ now' < 10 ^ 21)%Z → now' ≠ 1750100640000%Z →
       Routes.make_workspaceId (VStr userId') now' ≠ workspaceId).
Proof.
  apply (created_workspace_id sample_host world_direct [] relay_init
           (VObj [("userId", VStr "ada"); ("projectName", VStr "shop")])
           "ada" "shop");
    [reflexivity | reflexivity | discriminate | discriminate
    | change (now_reply world_direct []) with 1750100640000%Z; lia].
Defined.

Example created_id_sample :
  Routes.make_workspaceId (VStr "ada") sample_clock = "workspace-ada-1750100640000".
Proof. reflexivity. Qed.

(** C8 as stated fails on uniqueness: two creation requests of one user
    that read the same millisecond from the clock are both answered 200
    with the same workspace id. *)
Lemma same_millisecond_same_id :
  let req_body := VObj [("userId", VStr "ada"); ("projectName", VStr "shop")] in
  let first := run world_direct [] relay_init
                 (Routes.post_create sample_host req_body) in
  let second := run world_direct (trace first) (state first)
                  (Routes.post_create sample_host req_body) in
  ∃ payload1 payload2,
    returned first = Ok (Response 200 payload1)
    ∧ returned second = Ok (Response 200 payload2)
    ∧ JS.get payload1 "workspaceId" = Ok (VStr "workspace-ada-1750100640000")
    ∧ JS.get payload2 "workspaceId" = Ok (VStr "workspace-ada-1750100640000").
Proof.
  vm_compute. eexists _, _. repeat split; reflexivity.
Qed.

(** * Further properties of the code *)

(** ** createWorkspace *)

(** Without the tool (the probe fails or prints nothing but white space)
    createWorkspace runs nothing else and reports a workspace created in
    mock mode. *)
Theorem create_without_tool (w : world) (h : list event) (st : relay)
    (workspaceId repoUrl : value) :
  probe_found (exec_reply w h probe) = false →
  run w h st (DevPodManager.createWorkspace workspaceId repoUrl)
  = Outcome
      (Ok (VObj [("success", VBool true);
                 ("workspaceId", workspaceId);
                 ("status", VStr "created");
                 ("output", VStr "Workspace created in mock mode (DevPod not available)");
                 ("mode", VStr "mock")]))
      st [EExec probe (exec_reply w h probe)].
Proof.
  unfold probe, probe_found; simpl.
  destruct (exec_reply w h "which devpod") as [out | e0]; simpl.
  - intros ->. reflexivity.
  - intros _. reflexivity.
Qed.

Lemma create_without_tool_witness :
  run world_offline [] relay_init
    (DevPodManager.createWorkspace (VStr "w1") (VStr "repo"))
  = Outcome
      (Ok (VObj [("success", VBool true);
                 ("workspaceId", VStr "w1");
                 ("status", VStr "created");
                 ("output", VStr "Workspace created in mock mode (DevPod not available)");
                 ("mode", VStr "mock")]))
      relay_init [EExec probe (exec_reply world_offline [] probe)].
Proof.
  apply (create_without_tool world_offline [] relay_init (VStr "w1") (VStr "repo")).
  reflexivity.
Defined.

(** With the tool, createWorkspace runs
    [devpod up <repoUrl> --id <workspaceId> --provider docker], both
    values as [ToString] gives them, and answers with the output of that
    command or with its error. *)
Theorem create_with_tool (w : world) (h : list event) (st : relay)
    (workspaceId repoUrl : value) :
  probe_found (exec_reply w h probe) = true →
  let command := "devpod up " +:+ JS.to_string repoUrl +:+ " --id "
                   +:+ JS.to_string workspaceId +:+ " --provider docker" in
  let up := exec_reply w (h ++ [EExec probe (exec_reply w h probe)]) command in
  run w h st (DevPodManager.createWorkspace workspaceId repoUrl)
  = Outcome
      (Ok (match up with
           | Ok output =>
               VObj [("success", VBool true);
                     ("workspaceId", workspaceId);
                     ("status", VStr "created");
                     ("output", VStr output);
                     ("mode", VStr "devpod")]
           | Thrown e =>
               VObj [("success", VBool false);
                     ("error", VStr (error_message e))]
           end))
      st [EExec probe (exec_reply w h probe); EExec command up].
Proof.
  unfold probe, probe_found; simpl.
  destruct (exec_reply w h "which devpod") as [out | e0]; simpl;
    [| discriminate].
  intros ->. simpl.
  destruct (exec_reply w _ _); reflexivity.
Qed.

Lemma create_with_tool_witness :
  run world_devpod_down [] relay_init
    (DevPodManager.createWorkspace (VStr "w1") (VStr "repo"))
  = Outcome
      (Ok (VObj [("success", VBool false);
                 ("error", VStr "Command failed: devpod up repo --id w1 --provider docker")]))
      relay_init
      [EExec probe (Ok ("/usr/local/bin/devpod" +:+ newline));
       EExec "devpod up repo --id w1 --provider docker"
         (Thrown (Error "Command failed: devpod up repo --id w1 --provider docker"))].
Proof.
  apply (create_with_tool world_devpod_down [] relay_init (VStr "w1") (VStr "repo")).
  reflexivity.
Defined.

(** ** getWorkspaceStatus *)

Lemma find_by_id_sound (workspaceId : value) (items : list value) (w : value) :
  DevPodManager.find_by_id workspaceId items = Ok w →
  w = VUndefined ∨ (In w items ∧ id_matches workspaceId w = true).
Proof.
  induction items as [| x rest IH]; cbn [DevPodManager.find_by_id].
  - intros [= <-]. by left.
  - unfold id_matches.
    destruct (JS.get x "id") as [id | e] eqn:Eid; [| discriminate].
    destruct (JS.strict_equals id workspaceId) eqn:Eeq.
    + intros [= <-]. right. split; [by left |].
      unfold id_matches. by rewrite Eid.
    + intros Hw. destruct (IH Hw) as [-> | [Hin Hm]]; [by left |].
      right. split; [by right | done].
Qed.

(** Whatever [devpod list] prints, the status returned is one of the
    listed workspaces whose [id] is the one asked for, or
    [{status:'not_found'}], or [{status:'error', error}]. *)
Theorem status_sound (H : host) (w : world) (h : list event) (st : relay)
    (workspaceId : value) (r : value) :
  returned (run w h st (DevPodManager.getWorkspaceStatus H workspaceId)) = Ok r →
  r = VObj [("status", VStr "not_found")]
  ∨ (∃ e, r = VObj [("status", VStr "error"); ("error", VStr (error_message e))])
  ∨ (∃ out items,
       exec_reply w h "devpod list --output json" = Ok out
       ∧ JSON_parse H out = Ok (VArr items)
       ∧ In r items ∧ id_matches workspaceId r = true).
Proof.
  unfold DevPodManager.getWorkspaceStatus. simpl.
  destruct (exec_reply w h "devpod list --output json") as [out | e] eqn:Eout;
    simpl; [| intros [= <-]; right; left; eauto].
  destruct (JSON_parse H out) as [doc | e] eqn:Edoc; simpl;
    [| intros [= <-]; right; left; eauto].
  destruct (DevPodManager.find_workspace doc workspaceId) as [found | e] eqn:Ef;
    simpl; [| intros [= <-]; right; left; eauto].
  destruct (JS.truthy found) eqn:Et; intros [= <-]; [| by left].
  right. right. destruct doc; try discriminate Ef.
  apply find_by_id_sound in Ef as [-> | [Hin Hm]]; [discriminate Et |].
  eauto 10.
Qed.

Lemma status_sound_witness :
  listed "w2" "Stopped" = VObj [("status", VStr "not_found")]
  ∨ (∃ e, listed "w2" "Stopped"
          = VObj [("status", VStr "error"); ("error", VStr (error_message e))])
  ∨ (∃ out items,
       exec_reply world_listing [] "devpod list --output json" = Ok out
       ∧ JSON_parse wide_host out = Ok (VArr items)
       ∧ In (listed "w2" "Stopped") items
       ∧ id_matches (VStr "w2") (listed "w2" "Stopped") = true).
Proof.
  apply (status_sound wide_host world_listing [] relay_init (VStr "w2")
           (listed "w2" "Stopped")).
  reflexivity.
Defined.

Lemma find_by_id_first (workspaceId : value) (items : list value) :
  Forall (λ w, w ≠ VUndefined ∧ w ≠ VNull) items →
  DevPodManager.find_by_id workspaceId items
  = Ok (default VUndefined (List.find (id_matches workspaceId) items)).
Proof.
  induction 1 as [| x rest [Hu Hn] _ IH]; [reflexivity |].
  cbn [DevPodManager.find_by_id List.find]. unfold id_matches at 1.
  destruct (JS.get x "id") as [id | e] eqn:Eid.
  - destruct (JS.strict_equals id workspaceId); [reflexivity | exact IH].
  - by destruct x.
Qed.

(** When [devpod list] prints an array of objects, the status is the
    first of them whose [id] is strictly equal to the id asked for, and
    [{status:'not_found'}] when there is none; one subprocess is run and
    the id is not part of its command. *)
Theorem status_first_match (H : host) (w : world) (h : list event) (st : relay)
    (workspaceId : value) (out : string) (items : list value) :
  exec_reply w h "devpod list --output json" = Ok out →
  JSON_parse H out = Ok (VArr items) →
  Forall (λ w, ∃ props, w = VObj props) items →
  run w h st (DevPodManager.getWorkspaceStatus H workspaceId)
  = Outcome
      (Ok (match List.find (id_matches workspaceId) items with
           | Some workspace => workspace
           | None => VObj [("status", VStr "not_found")]
           end))
      st [EExec "devpod list --output json" (Ok out)].
Proof.
  intros Eout Edoc Hobj.
  unfold DevPodManager.getWorkspaceStatus. simpl. rewrite Eout. simpl.
  rewrite Edoc. simpl.
  change (DevPodManager.find_workspace (VArr items) workspaceId)
    with (DevPodManager.find_by_id workspaceId items).
  rewrite find_by_id_first.
  2: { eapply List.Forall_impl; [| exact Hobj]. intros x [props ->]. by split. }
  simpl.
  destruct (List.find (id_matches workspaceId) items) as [x |] eqn:Ex; simpl.
  - apply List.find_some in Ex as [Hin _].
    rewrite List.Forall_forall in Hobj.
    destruct (Hobj x Hin) as [props ->]. reflexivity.
  - reflexivity.
Qed.

Lemma status_first_match_witness :
  run world_listing [] relay_init
    (DevPodManager.getWorkspaceStatus wide_host (VStr "w3"))
  = Outcome
      (Ok (match List.find (id_matches (VStr "w3"))
                   [listed "w1" "Running"; listed "w2" "Stopped"] with
           | Some workspace => workspace
           | None => VObj [("status", VStr "not_found")]
           end))
      relay_init [EExec "devpod list --output json" (Ok list_text)].
Proof.
  apply (status_first_match wide_host world_listing [] relay_init (VStr "w3")
           list_text [listed "w1" "Running"; listed "w2" "Stopped"]).
  - reflexivity.
  - reflexivity.
  - repeat constructor; eexists; reflexivity.
Defined.

Example status_of_second_workspace :
  returned (run world_listing [] relay_init
              (DevPodManager.getWorkspaceStatus wide_host (VStr "w2")))
  = Ok (listed "w2" "Stopped").
Proof. reflexivity. Qed.

(** ** stopWorkspace and deleteWorkspace *)


(** ** executeInWorkspace *)

(** Without the tool, the answer of the hosted API to a string message
    is read at [data.content[0].text] and returned as [response] of a
    success value. *)
Theorem direct_answer (H : host) (w : world) (h : list event) (st : relay)
    (workspaceId : value) (m : string) (data content first text : value) :
  probe_found (exec_reply w h probe) = false →
  post_reply w (h ++ [EExec probe (exec_reply w h probe)]) DevPodManager.api_url
    (DevPodManager.api_request (VStr m)) (DevPodManager.api_config H) = Ok data →
  JS.get data "content" = Ok content →
  JS.get_index content 0 = Ok first →
  JS.get first "text" = Ok text →
  returned (run w h st (DevPodManager.executeInWorkspace H workspaceId (VStr m)))
  = Ok (VObj [("success", VBool true);
              ("response", text);
              ("context_used", VBool true);
              ("workspace_updated", VBool true);
              ("mode", VStr "direct-api")]).
Proof.
  unfold probe, probe_found. intros Hp Hd Hc Hf Ht. simpl.
  destruct (exec_reply w h "which devpod") as [out | e0]; simpl in *.
  - rewrite Hp. simpl. rewrite Hd. simpl. rewrite Hc. simpl. rewrite Hf. simpl.
    rewrite Ht. reflexivity.
  - change (DevPodManager.available None) with false. simpl.
    rewrite Hd. simpl. rewrite Hc. simpl. rewrite Hf. simpl.
    rewrite Ht. reflexivity.
Qed.

Lemma direct_answer_witness :
  returned (run world_direct [] relay_init
              (DevPodManager.executeInWorkspace sample_host (VStr "w1")
                 (VStr "hello")))
  = Ok (VObj [("success", VBool true);
              ("response", VStr "Use a component.");
              ("context_used", VBool true);
              ("workspace_updated", VBool true);
              ("mode", VStr "direct-api")]).
Proof.
  apply (direct_answer sample_host world_direct [] relay_init (VStr "w1")
           "hello"
           (VObj [("content",
                   VArr [VObj [("type", VStr "text");
                               ("text", VStr "Use a component.")]])])
           (VArr [VObj [("type", VStr "text"); ("text", VStr "Use a component.")]])
           (VObj [("type", VStr "text"); ("text", VStr "Use a component.")])
           (VStr "Use a component."));
    reflexivity.
Defined.

(** An answer of the hosted API to a string message with an empty
    [content] array is reported as a failure: reading [text] of the
    missing first element throws. *)
Theorem direct_answer_empty (H : host) (w : world) (h : list event)
    (st : relay) (workspaceId : value) (m : string) (data : value) :
  probe_found (exec_reply w h probe) = false →
  post_reply w (h ++ [EExec probe (exec_reply w h probe)]) DevPodManager.api_url
    (DevPodManager.api_request (VStr m)) (DevPodManager.api_config H) = Ok data →
  JS.get data "content" = Ok (VArr []) →
  returned (run w h st (DevPodManager.executeInWorkspace H workspaceId (VStr m)))
  = Ok (VObj [("success", VBool false);
              ("error", VStr "Cannot read properties of undefined (reading 'text')");
              ("response", VStr "I encountered an error processing your request.")]).
Proof.
  unfold probe, probe_found. intros Hp Hd Hc. simpl.
  destruct (exec_reply w h "which devpod") as [out | e0]; simpl in *.
  - rewrite Hp. simpl. rewrite Hd. simpl. rewrite Hc. reflexivity.
  - change (DevPodManager.available None) with false. simpl.
    rewrite Hd. simpl. rewrite Hc. reflexivity.
Qed.

Lemma direct_answer_empty_witness :
  returned (run world_empty_answer [] relay_init
              (DevPodManager.executeInWorkspace sample_host (VStr "w1")
                 (VStr "hello")))
  = Ok (VObj [("success", VBool false);
              ("error", VStr "Cannot read properties of undefined (reading 'text')");
              ("response", VStr "I encountered an error processing your request.")]).
Proof.
  apply (direct_answer_empty sample_host world_empty_answer [] relay_init
           (VStr "w1") "hello" (VObj [("content", VArr [])]));
    reflexivity.
Defined.

(** With the tool, for a string workspace id and a string message,
    whatever document the workspace handler prints is returned as it is;
    output that is not JSON is reported as a failure carrying the
    parser's message. *)
Theorem devpod_answer (H : host) (w : world) (h : list event) (st : relay)
    (workspaceId m out : string) :
  probe_found (exec_reply w h probe) = true →
  exec_reply w (h ++ [EExec probe (exec_reply w h probe)])
    (DevPodManager.ssh_command (VStr workspaceId) (JS.replace_quotes m))
  = Ok out →
  returned (run w h st (DevPodManager.executeInWorkspace H (VStr workspaceId)
                          (VStr m)))
  = Ok (match JSON_parse H out with
        | Ok doc => doc
        | Thrown e =>
            VObj [("success", VBool false);
                  ("error", VStr (error_message e));
                  ("response", VStr "I encountered an error processing your request.")]
        end).
Proof.
  unfold probe, probe_found. intros Hp Hout. simpl.
  destruct (exec_reply w h "which devpod") as [out0 | e0]; simpl in *;
    [| discriminate].
  rewrite Hp. simpl. rewrite Hout. simpl.
  destruct (JSON_parse H out); reflexivity.
Qed.

Lemma devpod_answer_witness :
  returned (run world_devpod [] relay_init
              (DevPodManager.executeInWorkspace sample_host (VStr "w1")
                 (VStr "hello")))
  = Ok (match JSON_parse sample_host answer_text with
        | Ok doc => doc
        | Thrown e =>
            VObj [("success", VBool false);
                  ("error", VStr (error_message e));
                  ("response", VStr "I encountered an error processing your request.")]
        end).
Proof.
  apply (devpod_answer sample_host world_devpod [] relay_init "w1"
           "hello" answer_text);
    reflexivity.
Defined.

(** With the tool, a message that is not a string never reaches the
    shell: [message.replace] throws, the turn ends after the probe and
    reports the failure. *)
Theorem devpod_needs_string (H : host) (w : world) (h : list event)
    (st : relay) (workspaceId message : value) :
  probe_found (exec_reply w h probe) = true →
  (∀ s, message ≠ VStr s) →
  ∃ e,
    run w h st (DevPodManager.executeInWorkspace H workspaceId message)
    = Outcome
        (Ok (VObj [("success", VBool false);
                   ("error", VStr (error_message e));
                   ("response", VStr "I encountered an error processing your request.")]))
        st [EExec probe (exec_reply w h probe)].
Proof.
  unfold probe, probe_found. intros Hp Hns. simpl.
  destruct (exec_reply w h "which devpod") as [out0 | e0]; simpl in *;
    [| discriminate].
  rewrite Hp. simpl.
  destruct message as [| | b | n | s | items | props];
    try (eexists; reflexivity).
  by destruct (Hns s).
Qed.

Lemma devpod_needs_string_witness :
  ∃ e,
    run world_devpod [] relay_init
      (DevPodManager.executeInWorkspace sample_host (VStr "w1") (VNum 42))
    = Outcome
        (Ok (VObj [("success", VBool false);
                   ("error", VStr (error_message e));
                   ("response", VStr "I encountered an error processing your request.")]))
        relay_init [EExec probe (exec_reply world_devpod [] probe)].
Proof.
  apply (devpod_needs_string sample_host world_devpod [] relay_init (VStr "w1")
           (VNum 42)).
  - reflexivity.
  - discriminate.
Defined.

(** ** The escaping of the message *)

(** Escaping leaves every character other than the single quote and the
    backslash as often in the text as before: the double quote that
    closes the [--command] argument, the dollar and the backquote pass
    through. *)
Theorem replace_quotes_other (c : ascii) (s : string) :
  c ≠ "'"%char → c ≠ "\"%char →
  count_char c (JS.replace_quotes s) = count_char c s.
Proof.
  intros Hq Hb.
  induction s as [| c' s IH]; [reflexivity |].
  cbn [JS.replace_quotes count_char].
  destruct (Ascii.eqb c' "'") eqn:E.
  - apply Ascii.eqb_eq in E as ->.
    change ("'\''" +:+ JS.replace_quotes s)
      with (String "'" (String "\" (String "'" (String "'" (JS.replace_quotes s))))).
    cbn [count_char]. rewrite IH.
    assert (Ascii.eqb "'" c = false) as -> by (apply Ascii.eqb_neq; congruence).
    assert (Ascii.eqb "\" c = false) as -> by (apply Ascii.eqb_neq; congruence).
    reflexivity.
  - cbn [count_char]. by rewrite IH.
Qed.

Lemma replace_quotes_other_witness :
  count_char "034" (JS.replace_quotes (dquote +:+ "; it's $HOME"))
  = count_char "034" (dquote +:+ "; it's $HOME").
Proof.
  apply (replace_quotes_other "034" (dquote +:+ "; it's $HOME")); discriminate.
Defined.

Lemma replace_quotes_cancel (s1 s2 : string) :
  JS.replace_quotes s1 = JS.replace_quotes s2 → s1 = s2.
Proof.
  revert s2. induction s1 as [| c1 s1 IH]; intros [| c2 s2];
    cbn [JS.replace_quotes].
  - done.
  - destruct (Ascii.eqb c2 "'"); discriminate.
  - destruct (Ascii.eqb c1 "'"); discriminate.
  - destruct (Ascii.eqb c1 "'") eqn:E1, (Ascii.eqb c2 "'") eqn:E2.
    + apply Ascii.eqb_eq in E1 as ->. apply Ascii.eqb_eq in E2 as ->.
      intros E. f_equal. apply IH.
      by apply (inj (String.app "'\''")) in E.
    + apply Ascii.eqb_eq in E1 as ->.
      intros [= <- E]. by rewrite Ascii.eqb_refl in E2.
    + apply Ascii.eqb_eq in E2 as ->.
      intros [= -> E]. by rewrite Ascii.eqb_refl in E1.
    + intros [= -> E]. f_equal. by apply IH.
Qed.

(** Escaping loses nothing: different messages give different escaped
    texts. *)
Theorem replace_quotes_inj (s1 s2 : string) :
  s1 ≠ s2 → JS.replace_quotes s1 ≠ JS.replace_quotes s2.
Proof. intros Hne E. by apply Hne, replace_quotes_cancel. Qed.

Lemma replace_quotes_inj_witness :
  JS.replace_quotes "it's" ≠ JS.replace_quotes "it\s".
Proof.
  apply (replace_quotes_inj "it's" "it\s"). discriminate.
Defined.

(** ** The creation route *)

(** A creation request without a user id or without a project name is
    answered 400; the clock is not read and nothing is created. *)
Theorem create_requires_fields (H : host) (w : world) (h : list event)
    (st : relay) (req_body userId projectName : value) :
  JS.destructure "req.body" req_body "userId" = Ok userId →
  JS.destructure "req.body" req_body "projectName" = Ok projectName →
  JS.truthy userId = false ∨ JS.truthy projectName = false →
  run w h st (Routes.post_create H req_body)
  = Outcome
      (Ok (Response 400
             (VObj [("success", VBool false);
                    ("error", VStr "userId and projectName are required")])))
      st [].
Proof.
  intros Hu Hp Hf.
  destruct (destructure_defined _ _ _ "description" _ Hu) as [description Hd].
  unfold Routes.post_create. rewrite Hu, Hp, Hd. simpl.
  destruct Hf as [-> | ->]; [reflexivity |].
  rewrite orb_true_r. reflexivity.
Qed.

Lemma create_requires_fields_witness :
  run world_direct [] relay_init
    (Routes.post_create sample_host (VObj [("userId", VStr "ada")]))
  = Outcome
      (Ok (Response 400
             (VObj [("success", VBool false);
                    ("error", VStr "userId and projectName are required")])))
      relay_init [].
Proof.
  apply (create_requires_fields sample_host world_direct [] relay_init
           (VObj [("userId", VStr "ada")]) (VStr "ada") VUndefined).
  - reflexivity.
  - reflexivity.
  - right. reflexivity.
Defined.

(** When the repository cannot be created from the template, the request
    is answered 500 with the error's message and no subprocess is run. *)
Theorem create_repository_failure (H : host) (w : world) (h : list event)
    (st : relay) (req_body : value) (e : error) :
  let o := run w h st (Routes.post_create H req_body) in
  (∃ params, In (ETemplate params (Thrown e)) (trace o)) →
  returned o = Ok (Response 500 (VObj [("success", VBool false);
                                       ("error", VStr (error_message e))]))
  ∧ count_exec (trace o) = 0%nat.
Proof.
  unfold Routes.post_create.
  settle; intros [params Hin]; in_trace Hin; split; reflexivity.
Qed.

Lemma create_repository_failure_witness :
  let o := run world_offline [] relay_init
             (Routes.post_create sample_host
                (VObj [("userId", VStr "ada"); ("projectName", VStr "shop")])) in
  returned o
  = Ok (Response 500
          (VObj [("success", VBool false);
                 ("error", VStr (error_message
                                   (Error "getaddrinfo ENOTFOUND api.github.com")))]))
  ∧ count_exec (trace o) = 0%nat.
Proof.
  apply (create_repository_failure sample_host world_offline [] relay_init
           (VObj [("userId", VStr "ada"); ("projectName", VStr "shop")])
           (Error "getaddrinfo ENOTFOUND api.github.com")).
  eexists. vm_compute. right. left. reflexivity.
Defined.

(** When [devpod up] fails, the failure value of createWorkspace is
    thrown again by the route and answered 500 with the same message; by
    then the repository has been created. *)
Theorem create_workspace_failure (H : host) (w : world) (h : list event)
    (st : relay) (req_body : value) (e : error) :
  let o := run w h st (Routes.post_create H req_body) in
  rejected e (trace o) →
  returned o = Ok (Response 500 (VObj [("success", VBool false);
                                       ("error", VStr (error_message e))]))
  ∧ ∃ params data, In (ETemplate params (Ok data)) (trace o).
Proof.
  unfold Routes.post_create, rejected.
  settle; intros [(c & Hc & Hin') | (u & d & cfg & Hin')];
    in_trace Hin'; try (exfalso; apply Hc; reflexivity);
    (split; [reflexivity | eexists _, _; simpl; eauto]).
Qed.

Lemma create_workspace_failure_witness :
  let o := run world_up_fails [] relay_init
             (Routes.post_create sample_host
                (VObj [("userId", VStr "ada"); ("projectName", VStr "shop")])) in
  let e := Error "Command failed: devpod up https://github.com/org/repo.git --id workspace-ada-1750100640000 --provider docker" in
  returned o = Ok (Response 500 (VObj [("success", VBool false);
                                       ("error", VStr (error_message e))]))
  ∧ ∃ params data, In (ETemplate params (Ok data)) (trace o).
Proof.
  apply (create_workspace_failure sample_host world_up_fails [] relay_init
           (VObj [("userId", VStr "ada"); ("projectName", VStr "shop")])
           (Error "Command failed: devpod up https://github.com/org/repo.git --id workspace-ada-1750100640000 --provider docker")).
  left. eexists. split; [| vm_compute; do 3 right; left; reflexivity].
  discriminate.
Defined.

(** The creation handler always answers, with status 200, 400 or 500:
    no error escapes it. *)
Theorem create_always_answers (H : host) (w : world) (h : list event)
    (st : relay) (req_body : value) :
  ∃ code payload,
    returned (run w h st (Routes.post_create H req_body))
    = Ok (Response code payload)
    ∧ In code [200; 400; 500]%nat.
Proof.
  unfold Routes.post_create, res_json.
  settle; eexists _, _; (split; [reflexivity | simpl; tauto]).
Qed.

(** ** The chat, status, stop and delete routes *)

(** A chat request with a message is answered 200 with the manager's
    result, whether the turn succeeded or not; the route adds no call of
    its own. *)
Theorem chat_answers_200 (H : host) (w : world) (h : list event) (st : relay)
    (workspaceId : string) (req_body message : value) :
  JS.destructure "req.body" req_body "message" = Ok message →
  JS.truthy message = true →
  let m := run w h st
             (DevPodManager.executeInWorkspace H (VStr workspaceId) message) in
  ∃ result,
    returned m = Ok result
    ∧ run w h st (Routes.post_chat H workspaceId req_body)
      = Outcome (Ok (Response 200 (JS.stringify result))) st (trace m).
Proof.
  intros Hm Ht. unfold Routes.post_chat. rewrite Hm. simpl. rewrite Ht. simpl.
  unfold res_json. settle; eexists; split; reflexivity.
Qed.

Lemma chat_answers_200_witness :
  let m := run world_offline [] relay_init
             (DevPodManager.executeInWorkspace sample_host (VStr "w1")
                (VStr "hello")) in
  ∃ result,
    returned m = Ok result
    ∧ run world_offline [] relay_init
        (Routes.post_chat sample_host "w1" (VObj [("message", VStr "hello")]))
      = Outcome (Ok (Response 200 (JS.stringify result))) relay_init (trace m).
Proof.
  apply (chat_answers_200 sample_host world_offline [] relay_init "w1"
           (VObj [("message", VStr "hello")]) (VStr "hello"));
    reflexivity.
Defined.

(** The status, stop and delete routes answer 200 with the manager's
    result, also when that result reports a failure; the 500 branch of
    these handlers is never taken. *)
Theorem lifecycle_answers_200 (H : host) (w : world) (h : list event)
    (st : relay) (workspaceId : string) :
  (∃ r,
     returned (run w h st (DevPodManager.getWorkspaceStatus H (VStr workspaceId)))
     = Ok r
     ∧ run w h st (Lifecycle_routes.get_status H workspaceId)
       = Outcome (Ok (Response 200 (JS.stringify r))) st
           (trace (run w h st
                     (DevPodManager.getWorkspaceStatus H (VStr workspaceId)))))
  ∧ (∃ r,
       returned (run w h st (DevPodManager.stopWorkspace (VStr workspaceId)))
       = Ok r
       ∧ run w h st (Lifecycle_routes.post_stop workspaceId)
         = Outcome (Ok (Response 200 (JS.stringify r))) st
             (trace (run w h st (DevPodManager.stopWorkspace (VStr workspaceId)))))
  ∧ (∃ r,
       returned (run w h st (DevPodManager.deleteWorkspace (VStr workspaceId)))
       = Ok r
       ∧ run w h st (Lifecycle_routes.delete_workspace workspaceId)
         = Outcome (Ok (Response 200 (JS.stringify r))) st
             (trace (run w h st
                       (DevPodManager.deleteWorkspace (VStr workspaceId))))).
Proof.
  unfold Lifecycle_routes.get_status, Lifecycle_routes.post_stop,
    Lifecycle_routes.delete_workspace, res_json.
  repeat split; settle; eexists; split; reflexivity.
Qed.

Example stop_failure_answers_200 :
  returned (run world_offline [] relay_init (Lifecycle_routes.post_stop "w1"))
  = Ok (Response 200 (VObj [("success", VBool false);
                            ("error", VStr "Command failed: devpod stop w1")])).
Proof. reflexivity. Qed.

(** ** The socket relay, message by message *)

(** A chat message with a workspace id and a text is served in this
    order, all on the socket it came from: [typing] on, the calls of one
    manager turn, the clock, the [response] built from the turn's result,
    [typing] off.  The relay state is left as it was. *)
Theorem chat_turn_order (H : host) (w : world) (h : list event) (st : relay)
    (ws : socket) (data : string) (props : list (string * value)) :
  JSON_parse H data = Ok (VObj props) →
  JS.lookup_prop "type" props = VStr "chat" →
  JS.truthy (JS.lookup_prop "workspaceId" props) = true →
  JS.truthy (JS.lookup_prop "message" props) = true →
  let h1 := (h ++ [ESend ws (typing_message true)])%list in
  let m := run w h1 st
             (DevPodManager.executeInWorkspace H
                (JS.lookup_prop "workspaceId" props)
                (JS.lookup_prop "message" props)) in
  let t := iso_reply w (h1 ++ trace m)%list in
  ∃ result,
    returned m = Ok result
    ∧ run w h st (Relay_server.on_message H ws data)
      = Outcome (Ok ()) st
          (ESend ws (typing_message true)
             :: trace m
             ++ [EISO t; ESend ws (response_message t result);
                 ESend ws (typing_message false)])%list.
Proof.
  intros Hp Ht Hw Hm.
  unfold Relay_server.on_message, Relay_server.dispatch.
  rewrite Hp. simpl. rewrite Ht.
  change (JS.strict_equals (VStr "chat") (VStr "init")) with false.
  change (JS.strict_equals (VStr "chat") (VStr "chat")) with true.
  rewrite Hw, Hm. simpl.
  unfold typing_message, response_message.
  settle; eexists; (split; [reflexivity |]);
    rewrite <- ?app_assoc; reflexivity.
Qed.

Lemma chat_turn_order_witness :
  let h1 := ([] ++ [ESend 7 (typing_message true)])%list in
  let m := run world_devpod h1 relay_init
             (DevPodManager.executeInWorkspace sample_host
                (JS.lookup_prop "workspaceId"
                   [("type", VStr "chat"); ("workspaceId", VStr "w1");
                    ("message", VStr "hello")])
                (JS.lookup_prop "message"
                   [("type", VStr "chat"); ("workspaceId", VStr "w1");
                    ("message", VStr "hello")])) in
  let t := iso_reply world_devpod (h1 ++ trace m)%list in
  ∃ result,
    returned m = Ok result
    ∧ run world_devpod [] relay_init
        (Relay_server.on_message sample_host 7 (chat_text "w1" "hello"))
      = Outcome (Ok ()) relay_init
          (ESend 7 (typing_message true)
             :: trace m
             ++ [EISO t; ESend 7 (response_message t result);
                 ESend 7 (typing_message false)])%list.
Proof.
  apply (chat_turn_order sample_host world_devpod [] relay_init 7
           (chat_text "w1" "hello")
           [("type", VStr "chat"); ("workspaceId", VStr "w1");
            ("message", VStr "hello")]);
    reflexivity.
Defined.

Lemma lookup_fold_set (key : string) (ps acc : list (string * value)) :
  NoDup (map fst ps) →
  JS.lookup_prop key (fold_left (λ o kv, JS.set_prop kv.1 kv.2 o) ps acc)
  = if existsb (λ kv, String.eqb kv.1 key) ps
    then JS.lookup_prop key ps
    else JS.lookup_prop key acc.
Proof.
  revert acc. induction ps as [| [k x] rest IH]; intros acc Hnd; [reflexivity |].
  apply list_relations.list.NoDup_cons in Hnd as [Hk Hrest].
  cbn [fold_left fst snd existsb]. rewrite (IH _ Hrest), lookup_set_prop.
  unfold JS.lookup_prop at 3. cbn [find fst snd].
  destruct (String.eqb k key) eqn:Ek; cbn [orb].
  - apply String.eqb_eq in Ek as ->.
    destruct (existsb (λ kv, String.eqb kv.1 key) rest) eqn:Ex; [| reflexivity].
    exfalso. apply Hk. apply existsb_exists in Ex as ([k' x'] & Hin & Heq).
    apply String.eqb_eq in Heq. cbn in Heq. subst k'.
    apply list_monad.list.list_elem_of_fmap. exists (key, x'). split; [done |].
    by apply list_elem_of_In.
  - destruct (existsb _ rest); reflexivity.
Qed.

(** The [response] message carries the server's time stamp, and every
    property of the manager's result under its own name (a [timestamp]
    of the result is overwritten; a [type] of the result takes the place
    of [response]). *)
Theorem response_carries_result (timestamp : string)
    (props : list (string * value)) (key : string) (v : value) :
  NoDup (map fst props) →
  key ≠ "timestamp" →
  JS.lookup_prop key props = v → v ≠ VUndefined →
  JS.get (response_message timestamp (VObj props)) "timestamp"
  = Ok (VStr timestamp)
  ∧ JS.get (response_message timestamp (VObj props)) key = Ok (JS.stringify v).
Proof.
  intros Hnd Hk Hv Hdef. unfold response_message.
  rewrite stringify_object. unfold JS.get. split; f_equal.
  - rewrite lookup_keep_defined; rewrite lookup_set_prop, String.eqb_refl; done.
  - assert (String.eqb "timestamp" key = false) as Ek
      by (apply String.eqb_neq; congruence).
    assert (JS.lookup_prop key
              (JS.set_prop "timestamp" (VStr timestamp)
                 (JS.spread [("type", VStr "response")] (VObj props))) = v) as E.
    { rewrite lookup_set_prop, Ek. unfold JS.spread. cbn [JS.own_props].
      rewrite lookup_fold_set by done.
      destruct (existsb (λ kv, String.eqb kv.1 key) props) eqn:Ex; [done |].
      exfalso. apply Hdef. rewrite <- Hv. unfold JS.lookup_prop.
      destruct (find (λ kv, String.eqb kv.1 key) props) as [kv |] eqn:Ef;
        [| done].
      apply List.find_some in Ef as [Hin Heq].
      assert (existsb (λ kv, String.eqb kv.1 key) props = true) as Ex'
        by (apply existsb_exists; eauto).
      congruence. }
    rewrite lookup_keep_defined; rewrite E; done.
Qed.

Lemma response_carries_result_witness :
  JS.get (response_message "2025-06-16T19:04:00.000Z"
            (VObj [("success", VBool false); ("error", VStr "boom");
                   ("timestamp", VStr "earlier")]))
    "timestamp"
  = Ok (VStr "2025-06-16T19:04:00.000Z")
  ∧ JS.get (response_message "2025-06-16T19:04:00.000Z"
              (VObj [("success", VBool false); ("error", VStr "boom");
                     ("timestamp", VStr "earlier")]))
      "error"
    = Ok (JS.stringify (VStr "boom")).
Proof.
  apply (response_carries_result "2025-06-16T19:04:00.000Z"
           [("success", VBool false); ("error", VStr "boom");
            ("timestamp", VStr "earlier")]
           "error" (VStr "boom")).
  - apply (bool_decide_unpack _). vm_compute. exact I.
  - discriminate.
  - reflexivity.
  - discriminate.
Defined.

(** A message whose [type] is neither [init] nor [chat] (or that has no
    [type] at all) is dropped without any answer, call or change. *)
Theorem ignored_message (H : host) (w : world) (h : list event) (st : relay)
    (ws : socket) (data : string) (doc type : value) :
  JSON_parse H data = Ok doc →
  JS.destructure "JSON.parse(...)" doc "type" = Ok type →
  JS.strict_equals type (VStr "init") = false →
  JS.strict_equals type (VStr "chat") = false →
  run w h st (Relay_server.on_message H ws data) = Outcome (Ok ()) st [].
Proof.
  intros Hp Ht Hi Hc.
  destruct (destructure_defined _ _ _ "workspaceId" _ Ht) as [wid Hw].
  destruct (destructure_defined _ _ _ "message" _ Ht) as [msg Hm].
  unfold Relay_server.on_message, Relay_server.dispatch.
  rewrite Hp. simpl. rewrite Ht. simpl. rewrite Hw. simpl. rewrite Hm. simpl.
  rewrite Hi, Hc. reflexivity.
Qed.

Lemma ignored_message_witness :
  run world_direct [] relay_init
    (Relay_server.on_message wide_host 7 ping_text)
  = Outcome (Ok ()) relay_init [].
Proof.
  apply (ignored_message wide_host world_direct [] relay_init 7 ping_text
           (VObj [("type", VStr "ping")]) (VStr "ping"));
    reflexivity.
Defined.

(** The JSON text [null] cannot be destructured: the client gets one
    [error] message and nothing else happens. *)
Theorem null_document_error (H : host) (w : world) (h : list event)
    (st : relay) (ws : socket) (data : string) :
  JSON_parse H data = Ok VNull →
  run w h st (Relay_server.on_message H ws data)
  = Outcome (Ok ()) st
      [ESend ws
         (VObj [("type", VStr "error");
                ("error", VStr "Cannot destructure property 'type' of 'JSON.parse(...)' as it is null.")])].
Proof.
  intros Hp. unfold Relay_server.on_message, Relay_server.dispatch.
  rewrite Hp. reflexivity.
Qed.

Lemma null_document_error_witness :
  run world_direct [] relay_init (Relay_server.on_message sample_host 7 "null")
  = Outcome (Ok ()) relay_init
      [ESend 7
         (VObj [("type", VStr "error");
                ("error", VStr "Cannot destructure property 'type' of 'JSON.parse(...)' as it is null.")])].
Proof.
  apply (null_document_error sample_host world_direct [] relay_init 7 "null").
  reflexivity.
Defined.

(** An [init] without a workspace id is acknowledged by
    [{type:'connected'}] alone, and the socket is registered under the
    key [undefined]. *)
Theorem init_without_id (H : host) (w : world) (h : list event) (st : relay)
    (ws : socket) (data : string) (props : list (string * value)) :
  JSON_parse H data = Ok (VObj props) →
  JS.lookup_prop "type" props = VStr "init" →
  JS.lookup_prop "workspaceId" props = VUndefined →
  run w h st (Relay_server.on_message H ws data)
  = Outcome (Ok ())
      (Relay (<[VUndefined := ws]> (activeConnections st))
             (<[ws := VUndefined]> (connectionWorkspaceId st)))
      [ESend ws (VObj [("type", VStr "connected")])].
Proof.
  intros Hp Ht Hw. unfold Relay_server.on_message, Relay_server.dispatch.
  rewrite Hp. simpl. rewrite Ht, Hw. reflexivity.
Qed.

Lemma init_without_id_witness :
  run world_direct [] relay_init
    (Relay_server.on_message wide_host 7 bare_init_text)
  = Outcome (Ok ())
      (Relay (<[VUndefined := 7%nat]> (activeConnections relay_init))
             (<[7%nat := VUndefined]> (connectionWorkspaceId relay_init)))
      [ESend 7 (VObj [("type", VStr "connected")])].
Proof.
  apply (init_without_id wide_host world_direct [] relay_init 7 bare_init_text
           [("type", VStr "init")]);
    reflexivity.
Defined.

(** After any inputs, an [init] whose workspace id is not an array or an
    object makes the table map that id to the socket that sent it,
    whichever socket held the id before. *)
Theorem init_takes_over (H : host) (w : world)
    (inputs : list Relay_server.input) (ws : socket) (data : string)
    (workspaceId : value) :
  init_of H data = Some workspaceId →
  primitive workspaceId = true →
  let st := (Relay_server.serve H w [] relay_init
               (inputs ++ [Relay_server.Message ws data])).1 in
  activeConnections st !! workspaceId = Some ws
  ∧ connectionWorkspaceId st !! ws = Some workspaceId.
Proof.
  intros Hinit _ st. subst st. rewrite serve_app.
  destruct (Relay_server.serve H w [] relay_init inputs) as [st1 tr1].
  cbn [Relay_server.serve Relay_server.handler fst].
  rewrite on_message_state, Hinit. split; apply lookup_insert_eq.
Qed.

Lemma init_takes_over_witness :
  let st := (Relay_server.serve sample_host world_direct [] relay_init
               (two_clients ++ [Relay_server.Message 3 (init_text "w1")])).1 in
  activeConnections st !! VStr "w1" = Some 3%nat
  ∧ connectionWorkspaceId st !! 3%nat = Some (VStr "w1").
Proof.
  apply (init_takes_over sample_host world_direct two_clients 3
           (init_text "w1") (VStr "w1"));
    reflexivity.
Defined.

(** Closing a socket writes nothing and calls nothing; it leaves the
    closure variables alone and changes the table at most under the
    workspace id of the closing connection. *)
Theorem close_is_local (w : world) (h : list event) (st : relay) (ws : socket) :
  let o := run w h st (Relay_server.on_close ws) in
  trace o = []
  ∧ connectionWorkspaceId (state o) = connectionWorkspaceId st
  ∧ ∀ key, key ≠ default VNull (connectionWorkspaceId st !! ws) →
      activeConnections (state o) !! key = activeConnections st !! key.
Proof.
  unfold Relay_server.on_close. simpl.
  destruct (JS.truthy (default VNull (connectionWorkspaceId st !! ws)));
    simpl; repeat split; intros; by rewrite ?lookup_delete_ne.
Qed.

(** The relay state is never read while a message is served: what is
    written and called is the same in every state. *)
Theorem relay_never_read (H : host) (w : world) (h : list event)
    (st st' : relay) (ws : socket) (data : string) :
  trace (run w h st (Relay_server.on_message H ws data))
  = trace (run w h st' (Relay_server.on_message H ws data))
  ∧ returned (run w h st (Relay_server.on_message H ws data))
    = returned (run w h st' (Relay_server.on_message H ws data)).
Proof.
  unfold Relay_server.on_message, Relay_server.dispatch.
  settle; split; reflexivity.
Qed.

(** ** The local server *)

(** A workspace created in the local manager is found again under its id
    as a running workspace with its repository; the status of every other
    id is as before. *)
Theorem local_create_then_status (w : world) (h : list event) (st : relay)
    (workspaces : gmap value value) (workspaceId repoUrl other : value) :
  let o := run w h st
             (Local_server.createWorkspace workspaces workspaceId repoUrl) in
  ∃ workspaces' result,
    returned o = Ok (workspaces', result)
    ∧ Local_server.getWorkspaceStatus workspaces' workspaceId
      = VObj [("id", workspaceId); ("repoUrl", repoUrl);
              ("status", VStr "running"); ("created", VStr (iso_reply w h))]
    ∧ (other ≠ workspaceId →
       Local_server.getWorkspaceStatus workspaces' other
       = Local_server.getWorkspaceStatus workspaces other).
Proof.
  simpl. eexists _, _. split; [reflexivity |].
  unfold Local_server.getWorkspaceStatus. split.
  - by rewrite lookup_insert_eq.
  - intros Hne. by rewrite lookup_insert_ne.
Qed.

(** A turn of the local manager on a string message is exactly one post
    to the hosted API, no subprocess, and never throws; a failed post is
    reported with the local apology text. *)
Theorem local_turn (H : host) (w : world) (h : list event) (st : relay)
    (workspaceId : value) (m : string) :
  let o := run w h st (Local_server.executeInWorkspace H workspaceId (VStr m)) in
  ∃ body r v,
    trace o = [EPost DevPodManager.api_url body (DevPodManager.api_config H) r]
    ∧ returned o = Ok v
    ∧ (∀ e, r = Thrown e →
         v = VObj [("success", VBool false);
                   ("error", VStr (error_message e));
                   ("response", VStr "I encountered an error processing your request. Please check the API configuration.")]).
Proof.
  unfold Local_server.executeInWorkspace.
  settle; eexists _, _, _; (split; [reflexivity |]); (split; [reflexivity |]);
    intros e' [=]; subst; reflexivity.
Qed.

(** A creation request that the local server answers 200 has registered
    the workspace: the manager finds it under the id of the answer,
    running, and no other entry of the map is touched. *)
Theorem local_create_round_trip (H : host) (w : world) (h : list event)
    (st : relay) (workspaces workspaces' : gmap value value)
    (req_body payload : value) :
  returned (run w h st (Local_server.post_create H workspaces req_body))
  = Ok (workspaces', Response 200 payload) →
  ∃ id repoUrl created,
    JS.get payload "workspaceId" = Ok (VStr id)
    ∧ Local_server.getWorkspaceStatus workspaces' (VStr id)
      = VObj [("id", VStr id); ("repoUrl", repoUrl);
              ("status", VStr "running"); ("created", VStr created)]
    ∧ ∀ other, other ≠ VStr id → workspaces' !! other = workspaces !! other.
Proof.
  set (Q := ∃ id repoUrl created, _).
  unfold Local_server.post_create, res_json.
  settle; intros [= E1 E2]; subst Q workspaces' payload.
  eexists _, _, _. split; [reflexivity |].
  unfold Local_server.getWorkspaceStatus. split.
  - rewrite lookup_insert_eq. reflexivity.
  - intros other Hne. by rewrite lookup_insert_ne.
Qed.

Lemma local_create_round_trip_witness :
  let record :=
    VObj [("id", VStr "workspace-ada-1750100640000");
          ("repoUrl", VStr "https://github.com/org/repo.git");
          ("status", VStr "running");
          ("created", VStr "2025-06-16T19:04:00.000Z")] in
  let workspaces' : gmap value value :=
    <[VStr "workspace-ada-1750100640000" := record]> ∅ in
  ∃ id repoUrl created,
    JS.get (VObj [("success", VBool true);
                  ("workspaceId", VStr "workspace-ada-1750100640000");
                  ("repositoryUrl", VStr "https://github.com/org/repo");
                  ("cloneUrl", VStr "https://github.com/org/repo.git");
                  ("workspace",
                   VObj [("success", VBool true);
                         ("workspaceId", VStr "workspace-ada-1750100640000");
                         ("status", VStr "created");
                         ("output", VStr "Mock workspace created successfully")])])
      "workspaceId"
    = Ok (VStr id)
    ∧ Local_server.getWorkspaceStatus workspaces' (VStr id)
      = VObj [("id", VStr id); ("repoUrl", repoUrl);
              ("status", VStr "running"); ("created", VStr created)]
    ∧ ∀ other, other ≠ VStr id →
        workspaces' !! other = (∅ : gmap value value) !! other.
Proof.
  intros record workspaces'.
  apply (local_create_round_trip sample_host world_direct [] relay_init ∅
           workspaces'
           (VObj [("userId", VStr "ada"); ("projectName", VStr "shop")])).
  reflexivity.
Defined.

(** ** The closure variable of a connection *)

(** After any sequence of connections, messages and closes, the
    [connectionWorkspaceId] of a connection is the workspace id of its
    latest [init], and [null] if it has sent none since it connected;
    chats and the traffic of other sockets do not change it. *)
Theorem closure_tracks_latest_init (H : host) (w : world)
    (inputs : list Relay_server.input) (ws : socket) :
  default VNull
    (connectionWorkspaceId
       (Relay_server.serve H w [] relay_init inputs).1 !! ws)
  = latest_init H ws inputs VNull.
Proof.
  rewrite closure_holds_latest_init.
  unfold relay_init. cbn [connectionWorkspaceId].
  by rewrite lookup_empty.
Qed.
